(** * Bounded-retry topic generation (data_curate/utils.py)

    A shallow embedding of [generate_subtopics] and [generate_macro_topics].
    Both functions drive an external [NemotronGenerator]: they ask it for a
    response, hand the first element of the response to its YAML conversion,
    and retry, printing a diagnostic, when a [YamlConversionError] is raised.

    The generator is not part of the repository.  It is a parameter of the
    development: a record of state transformers over a hidden state [G].
    Python exceptions are an explicit result type, [print] and the calls made
    on the generator are recorded in one chronological trace. *)

From Stdlib Require Import ZArith Lia.
From stdpp Require Import base strings list gmap.

Open Scope string_scope.
Open Scope list_scope.
Open Scope Z_scope.

(** ** Exceptions and results *)

(** The exceptions the two functions can see.  [except YamlConversionError]
    matches the class and its subclasses, and the handler only uses [str(e)],
    so a conversion error is its message.  [IndexError] is what indexing an
    empty list raises; every other exception is [OtherError]. *)
Inductive exn : Type :=
| YamlConversionError (message : string)
| IndexError (message : string)
| OtherError (class_name message : string).

Inductive result (A : Type) : Type :=
| Returns (a : A)
| Raises (e : exn).
Arguments Returns {A} a.
Arguments Raises {A} e.

Definition is_yaml_conversion_error (e : exn) : bool :=
  match e with
  | YamlConversionError _ => true
  | _ => false
  end.

Section Retry.

(** [G] is the hidden state of the generator and of everything behind it (the
    model service); [Value] is the type of the configuration options, which
    the functions never inspect. *)
Context {G Value : Type}.

(** ** The generator capability *)

(** The three methods of [NemotronGenerator] the module calls, with their
    keyword arguments in the order of the call sites.  The conversion takes
    [model_kwargs] optionally: [generate_subtopics] leaves it out. *)
Record NemotronGenerator : Type := {
  gen_generate_subtopics :
    string -> gmap string Value -> string -> Z -> string ->
    G -> result (list string) * G;
  gen_generate_macro_topics :
    Z -> string -> gmap string Value -> string ->
    G -> result (list string) * G;
  gen_convert_response_to_yaml_list :
    string -> string -> option (gmap string Value) ->
    G -> result (list string) * G
}.

(** ** Observable events *)

(** A call on the generator is recorded with its arguments and its outcome;
    [Print] is one line written by [print]. *)
Inductive Event : Type :=
| GenerateSubtopics (model : string) (model_kwargs : gmap string Value)
    (macro_topic : string) (n_subtopics : Z) (prompt_template : string)
    (outcome : result (list string))
| GenerateMacroTopics (n_macro_topics : Z) (model : string)
    (model_kwargs : gmap string Value) (prompt_template : string)
    (outcome : result (list string))
| ConvertResponseToYamlList (llm_response : string) (model : string)
    (model_kwargs : option (gmap string Value))
    (outcome : result (list string))
| Print (line : string).

Record World : Type := {
  generator_state : G;
  trace : list Event
}.

(** ** State and exception monad *)

Definition M (A : Type) : Type := World -> result A * World.

Definition ret {A : Type} (a : A) : M A := fun w => (Returns a, w).

Definition bind {A B : Type} (m : M A) (k : A -> M B) : M B :=
  fun w =>
    match m w with
    | (Returns a, w') => k a w'
    | (Raises e, w') => (Raises e, w')
    end.

Definition raise {A : Type} (e : exn) : M A := fun w => (Raises e, w).

Notation "x <- m ;; k" := (bind m (fun x => k))
  (at level 100, m at next level, right associativity).
Notation "m ;;; k" := (bind m (fun _ => k))
  (at level 100, right associativity).

(** A method call on the generator: the generator's state advances and the
    call is recorded, whether it returns or raises. *)
Definition call {A : Type} (op : G -> result A * G)
    (record_call : result A -> Event) : M A :=
  fun w =>
    let '(r, g') := op (generator_state w) in
    (r, {| generator_state := g'; trace := trace w ++ [record_call r] |}).

(** [print(line)] *)
Definition print (line : string) : M unit :=
  fun w =>
    (Returns tt,
     {| generator_state := generator_state w;
        trace := trace w ++ [Print line] |}).

(** [llm_response[0]] *)
Definition getitem0 (llm_response : list string) : M string :=
  match llm_response with
  | [] => raise (IndexError "list index out of range")
  | first :: _ => ret first
  end.

(** [try: body except YamlConversionError as e: handler(str(e))] *)
Definition try_except_YamlConversionError {A : Type}
    (body : M A) (handler : string -> M A) : M A :=
  fun w =>
    match body w with
    | (Raises (YamlConversionError message), w') => handler message w'
    | other => other
    end.

(** ** The retry loop *)

(** What one iteration of the loop body does to the loop: [break] with the
    list just assigned, or fall through to the next iteration. *)
Inductive Flow : Type :=
| Break (topics : list string)
| NextIteration.

(** [f"Hit: {e}, Retrying..."] *)
Definition retry_message (e : string) : string :=
  "Hit: " +:+ e +:+ ", Retrying...".

(** The body of the [for] loop, given the statements of the [try] block up to
    the assignment. *)
Definition iteration (attempt : M (list string)) : M Flow :=
  try_except_YamlConversionError
    (topics <- attempt ;; ret (Break topics))
    (fun e => print (retry_message e) ;;; ret NextIteration).

(** [for _ in range(n): ...] followed by [return topics], where [topics] is
    the local list, still [[]] as long as no iteration broke out. *)
Fixpoint for_range (n : nat) (body : M Flow) (topics : list string)
    : M (list string) :=
  match n with
  | O => ret topics
  | S n' =>
      flow <- body ;;
      match flow with
      | Break topics' => ret topics'
      | NextIteration => for_range n' body topics
      end
  end.

(** ** The two functions *)

Section Functions.

Variable generator : NemotronGenerator.

(** The statements of the [try] block of [generate_subtopics]. *)
Definition subtopics_attempt (model : string)
    (model_kwargs : gmap string Value) (macro_topic : string)
    (n_subtopics : Z) (prompt_template : string) : M (list string) :=
  llm_response <-
    call (gen_generate_subtopics generator model model_kwargs macro_topic
            n_subtopics prompt_template)
         (GenerateSubtopics model model_kwargs macro_topic n_subtopics
            prompt_template) ;;
  first <- getitem0 llm_response ;;
  call (gen_convert_response_to_yaml_list generator first model None)
       (ConvertResponseToYamlList first model None).

(** [range(n_retries)] is empty for a negative [n_retries]. *)
Definition generate_subtopics (model : string)
    (model_kwargs : gmap string Value) (macro_topic : string)
    (n_subtopics : Z) (prompt_template : string) (n_retries : Z)
    : M (list string) :=
  for_range (Z.to_nat n_retries)
    (iteration (subtopics_attempt model model_kwargs macro_topic n_subtopics
                  prompt_template))
    [].

(** The statements of the [try] block of [generate_macro_topics].  The
    defaults of [prompt_template] and [n_retries] are filled in by the
    caller: here both are given. *)
Definition macro_topics_attempt (model : string)
    (model_kwargs : gmap string Value) (n_macro_topics : Z)
    (prompt_template : string) : M (list string) :=
  llm_response <-
    call (gen_generate_macro_topics generator n_macro_topics model
            model_kwargs prompt_template)
         (GenerateMacroTopics n_macro_topics model model_kwargs
            prompt_template) ;;
  first <- getitem0 llm_response ;;
  call (gen_convert_response_to_yaml_list generator first model
          (Some model_kwargs))
       (ConvertResponseToYamlList first model (Some model_kwargs)).

Definition generate_macro_topics (model : string)
    (model_kwargs : gmap string Value) (n_macro_topics : Z)
    (prompt_template : string) (n_retries : Z) : M (list string) :=
  for_range (Z.to_nat n_retries)
    (iteration (macro_topics_attempt model model_kwargs n_macro_topics
                  prompt_template))
    [].

End Functions.

(** ** Reading a trace *)

Definition is_generation (ev : Event) : bool :=
  match ev with
  | GenerateSubtopics _ _ _ _ _ _ | GenerateMacroTopics _ _ _ _ _ => true
  | _ => false
  end.

Definition is_conversion (ev : Event) : bool :=
  match ev with
  | ConvertResponseToYamlList _ _ _ _ => true
  | _ => false
  end.

Definition printed_line (ev : Event) : option string :=
  match ev with
  | Print line => Some line
  | _ => None
  end.

(** The lines printed, in order. *)
Definition diagnostics (t : list Event) : list string := omap printed_line t.

(** How many times a generation operation, resp. the conversion, was
    invoked. *)
Definition generation_calls (t : list Event) : nat :=
  length (List.filter is_generation t).

Definition conversion_calls (t : list Event) : nat :=
  length (List.filter is_conversion t).

(** The outcome of a call, [None] for a printed line. *)
Definition call_outcome (ev : Event) : option (result (list string)) :=
  match ev with
  | GenerateSubtopics _ _ _ _ _ r | GenerateMacroTopics _ _ _ _ r
  | ConvertResponseToYamlList _ _ _ r => Some r
  | Print _ => None
  end.

Definition extend (w : World) (g : G) (t : list Event) : World :=
  {| generator_state := g; trace := trace w ++ t |}.

(** ** What the capability does on one attempt *)

Inductive Outcome : Type :=
| GenerationRaised (e : exn)
| EmptyResponse
| ConversionRaised (e : exn)
| Converted (topics : list string).

(** The capability's behaviour from state [g] when [generate] is invoked and
    the first element of its response is given to [convert]. *)
Definition attempt_outcome (generate : G -> result (list string) * G)
    (convert : string -> G -> result (list string) * G) (g : G)
    : Outcome * G :=
  match generate g with
  | (Raises e, g1) => (GenerationRaised e, g1)
  | (Returns [], g1) => (EmptyResponse, g1)
  | (Returns (first :: _), g1) =>
      match convert first g1 with
      | (Raises e, g2) => (ConversionRaised e, g2)
      | (Returns topics, g2) => (Converted topics, g2)
      end
  end.

(** One attempt of [generate_subtopics], seen from the capability: the
    generation operation with the arguments of the call, the conversion with
    the model identifier only. *)
Definition subtopics_outcome (generator : NemotronGenerator) (model : string)
    (model_kwargs : gmap string Value) (macro_topic : string)
    (n_subtopics : Z) (prompt_template : string) : G -> Outcome * G :=
  attempt_outcome
    (gen_generate_subtopics generator model model_kwargs macro_topic
       n_subtopics prompt_template)
    (fun first => gen_convert_response_to_yaml_list generator first model None).

(** One attempt of [generate_macro_topics], seen from the capability: the
    conversion is given the configuration mapping as well. *)
Definition macro_topics_outcome (generator : NemotronGenerator)
    (model : string) (model_kwargs : gmap string Value) (n_macro_topics : Z)
    (prompt_template : string) : G -> Outcome * G :=
  attempt_outcome
    (gen_generate_macro_topics generator n_macro_topics model model_kwargs
       prompt_template)
    (fun first =>
       gen_convert_response_to_yaml_list generator first model
         (Some model_kwargs)).

(** The message of a conversion error raised by the conversion step. *)
Definition conversion_failure (o : Outcome) : option string :=
  match o with
  | ConversionRaised (YamlConversionError message) => Some message
  | _ => None
  end.

(** The message of a conversion error raised by either step. *)
Definition yaml_failure (o : Outcome) : option string :=
  match o with
  | GenerationRaised (YamlConversionError message)
  | ConversionRaised (YamlConversionError message) => Some message
  | _ => None
  end.

(** The exception the capability raised, in either step. *)
Definition raised (o : Outcome) : option exn :=
  match o with
  | GenerationRaised e | ConversionRaised e => Some e
  | _ => None
  end.

(** What the [try] block evaluates to on an outcome. *)
Definition outcome_result (o : Outcome) : result (list string) :=
  match o with
  | GenerationRaised e | ConversionRaised e => Raises e
  | EmptyResponse => Raises (IndexError "list index out of range")
  | Converted topics => Returns topics
  end.

(** The exception an attempt lets through to the caller. *)
Definition propagated (o : Outcome) : option exn :=
  match o with
  | GenerationRaised e | ConversionRaised e =>
      if is_yaml_conversion_error e then None else Some e
  | EmptyResponse => Some (IndexError "list index out of range")
  | Converted _ => None
  end.

(** [failed_attempts outcome failure k g]: the capability fails, in the sense
    of [failure], on each of [k] consecutive attempts from state [g]; the
    result is the messages of the errors and the state after the last of
    them. *)
Fixpoint failed_attempts (outcome : G -> Outcome * G)
    (failure : Outcome -> option string) (k : nat) (g : G)
    : option (list string * G) :=
  match k with
  | O => Some ([], g)
  | S k' =>
      let '(o, g1) := outcome g in
      match failure o with
      | Some message =>
          match failed_attempts outcome failure k' g1 with
          | Some (messages, g2) => Some (message :: messages, g2)
          | None => None
          end
      | None => None
      end
  end.

(** ** The two call shapes *)

(** The two functions have the same loop and differ in the generation
    operation they invoke and in what they forward.  A [Shape] is the
    arguments of one of them; the definitions below read off a shape what the
    [try] block of that function does. *)
Inductive Shape : Type :=
| SubtopicsShape (model : string) (model_kwargs : gmap string Value)
    (macro_topic : string) (n_subtopics : Z) (prompt_template : string)
| MacroTopicsShape (model : string) (model_kwargs : gmap string Value)
    (n_macro_topics : Z) (prompt_template : string).

Definition shape_attempt (generator : NemotronGenerator) (s : Shape)
    : M (list string) :=
  match s with
  | SubtopicsShape model model_kwargs macro_topic n_subtopics
      prompt_template =>
      subtopics_attempt generator model model_kwargs macro_topic n_subtopics
        prompt_template
  | MacroTopicsShape model model_kwargs n_macro_topics prompt_template =>
      macro_topics_attempt generator model model_kwargs n_macro_topics
        prompt_template
  end.

Definition generation_event (s : Shape) (r : result (list string)) : Event :=
  match s with
  | SubtopicsShape model model_kwargs macro_topic n_subtopics
      prompt_template =>
      GenerateSubtopics model model_kwargs macro_topic n_subtopics
        prompt_template r
  | MacroTopicsShape model model_kwargs n_macro_topics prompt_template =>
      GenerateMacroTopics n_macro_topics model model_kwargs prompt_template r
  end.

Definition shape_model (s : Shape) : string :=
  match s with
  | SubtopicsShape model _ _ _ _ | MacroTopicsShape model _ _ _ => model
  end.

(** The configuration mapping the conversion is called with. *)
Definition forwarded_kwargs (s : Shape) : option (gmap string Value) :=
  match s with
  | SubtopicsShape _ _ _ _ _ => None
  | MacroTopicsShape _ model_kwargs _ _ => Some model_kwargs
  end.

Definition conversion_event (s : Shape) (first : string)
    (r : result (list string)) : Event :=
  ConvertResponseToYamlList first (shape_model s) (forwarded_kwargs s) r.

Definition shape_generation (generator : NemotronGenerator) (s : Shape)
    : G -> result (list string) * G :=
  match s with
  | SubtopicsShape model model_kwargs macro_topic n_subtopics
      prompt_template =>
      gen_generate_subtopics generator model model_kwargs macro_topic
        n_subtopics prompt_template
  | MacroTopicsShape model model_kwargs n_macro_topics prompt_template =>
      gen_generate_macro_topics generator n_macro_topics model model_kwargs
        prompt_template
  end.

Definition shape_conversion (generator : NemotronGenerator) (s : Shape)
    (first : string) : G -> result (list string) * G :=
  gen_convert_response_to_yaml_list generator first (shape_model s)
    (forwarded_kwargs s).

Definition shape_outcome (generator : NemotronGenerator) (s : Shape)
    : G -> Outcome * G :=
  attempt_outcome (shape_generation generator s)
    (shape_conversion generator s).

(** The events one attempt from state [g] records: the generation call, and
    the conversion call when there was a first element to convert. *)
Definition attempt_events (generator : NemotronGenerator) (s : Shape)
    (g : G) : list Event :=
  match shape_generation generator s g with
  | (Returns (first :: rest), g1) =>
      [generation_event s (Returns (first :: rest));
       conversion_event s first
         (fst (shape_conversion generator s first g1))]
  | (r, _) => [generation_event s r]
  end.

(** The loop of either function, with [n] iterations. *)
Definition retry (generator : NemotronGenerator) (s : Shape) (n : nat)
    : M (list string) :=
  for_range n (iteration (shape_attempt generator s)) [].

(** The runs of the loop: [retry_run generator s n g t r g'] when [n]
    iterations from generator state [g] record the events [t], end with [r]
    and leave the generator in state [g']. *)
Inductive retry_run (generator : NemotronGenerator) (s : Shape)
    : nat -> G -> list Event -> result (list string) -> G -> Prop :=
| run_exhausted g :
    retry_run generator s 0 g [] (Returns []) g
| run_break n g topics g' :
    shape_outcome generator s g = (Converted topics, g') ->
    retry_run generator s (S n) g (attempt_events generator s g)
      (Returns topics) g'
| run_retry n g o message g1 t r g2 :
    shape_outcome generator s g = (o, g1) ->
    yaml_failure o = Some message ->
    retry_run generator s n g1 t r g2 ->
    retry_run generator s (S n) g
      (attempt_events generator s g ++ Print (retry_message message) :: t)
      r g2
| run_raise n g o e g1 :
    shape_outcome generator s g = (o, g1) ->
    propagated o = Some e ->
    retry_run generator s (S n) g (attempt_events generator s g)
      (Raises e) g1.

(** ** Diagnostics and the errors they report *)

(** The message of the conversion error a call raised, [None] for any other
    event. *)
Definition caught_message (ev : Event) : option string :=
  match call_outcome ev with
  | Some (Raises (YamlConversionError message)) => Some message
  | _ => None
  end.

(** In the trace [t], every call that raised a conversion error is directly
    followed by the line [retry_message] makes of its message, and no other
    line is printed. *)
Fixpoint diagnostics_follow_errors (t : list Event) : bool :=
  match t with
  | [] => true
  | ev :: t' =>
      match caught_message ev with
      | Some message =>
          match t' with
          | Print line :: t'' =>
              String.eqb line (retry_message message)
              && diagnostics_follow_errors t''
          | _ => false
          end
      | None =>
          match printed_line ev with
          | Some _ => false
          | None => diagnostics_follow_errors t'
          end
      end
  end.

End Retry.

Arguments NemotronGenerator : clear implicits.
Arguments Event : clear implicits.
Arguments World : clear implicits.
Arguments Shape : clear implicits.

(** ** A scripted generator *)

(** A generator for concrete runs: its state is the list of outcomes its
    next calls will have, whichever method is called. *)
Definition scripted_call (script : list (result (list string)))
    : result (list string) * list (result (list string)) :=
  match script with
  | [] => (Raises (OtherError "RuntimeError" "script exhausted"), [])
  | r :: script' => (r, script')
  end.

Definition scripted
    : NemotronGenerator (list (result (list string))) string :=
  {| gen_generate_subtopics := fun _ _ _ _ _ => scripted_call;
     gen_generate_macro_topics := fun _ _ _ _ => scripted_call;
     gen_convert_response_to_yaml_list := fun _ _ _ => scripted_call |}.

Definition start (script : list (result (list string)))
    : World (list (result (list string))) string :=
  {| generator_state := script; trace := [] |}.

Definition sampling : gmap string string :=
  {[ "temperature" := "0.2"; "top_p" := "0.9" ]}.

(** Scripts: the conversion fails twice and then succeeds; it fails on both
    of two attempts; the service breaks on the second attempt; the conversion
    returns more topics than asked for, or none; the generation raises a
    conversion error; the generation returns an empty collection. *)
Definition recovering_script : list (result (list string)) :=
  [Returns ["raw one"; "spare"]; Raises (YamlConversionError "not a list");
   Returns ["raw two"]; Raises (YamlConversionError "not yaml");
   Returns ["raw three"]; Returns ["Algebra"; "Geometry"]].

Definition failing_script : list (result (list string)) :=
  [Returns ["raw one"]; Raises (YamlConversionError "not a list");
   Returns ["raw two"]; Raises (YamlConversionError "not yaml")].

Definition crashing_script : list (result (list string)) :=
  [Returns ["raw one"]; Raises (YamlConversionError "not a list");
   Raises (OtherError "ConnectionError" "service unavailable");
   Returns ["raw two"]; Returns ["Algebra"]].



Definition generation_failure_script : list (result (list string)) :=
  [Raises (YamlConversionError "no response"); Returns ["raw"];
   Returns ["Algebra"]].

Definition empty_response_script : list (result (list string)) :=
  [Returns ["raw one"]; Raises (YamlConversionError "not a list");
   Returns []; Returns ["raw two"]; Returns ["Algebra"]].

(** The generation raises a conversion error, then the conversion does. *)
Definition mixed_script : list (result (list string)) :=
  [Raises (YamlConversionError "no response"); Returns ["raw one"];
   Raises (YamlConversionError "not a list"); Returns ["raw two"];
   Returns ["Algebra"]].

(** The scripted generator, with a conversion that refuses the
    configuration mapping, and one that insists on it. *)
Definition scripted_refusing_kwargs
    : NemotronGenerator (list (result (list string))) string :=
  {| gen_generate_subtopics := fun _ _ _ _ _ => scripted_call;
     gen_generate_macro_topics := fun _ _ _ _ => scripted_call;
     gen_convert_response_to_yaml_list := fun _ _ model_kwargs script =>
       match model_kwargs with
       | None => scripted_call script
       | Some _ =>
           (Raises (OtherError "TypeError" "unexpected model_kwargs"), script)
       end |}.

Definition scripted_requiring_kwargs
    : NemotronGenerator (list (result (list string))) string :=
  {| gen_generate_subtopics := fun _ _ _ _ _ => scripted_call;
     gen_generate_macro_topics := fun _ _ _ _ => scripted_call;
     gen_convert_response_to_yaml_list := fun _ _ model_kwargs script =>
       match model_kwargs with
       | None =>
           (Raises (OtherError "TypeError" "missing model_kwargs"), script)
       | Some _ => scripted_call script
       end |}.

(** * Properties *)

Section Properties.

Context {G Value : Type}.
Variable generator : NemotronGenerator G Value.

Implicit Types (s : Shape Value) (w : World G Value) (g : G).
Implicit Types (t : list (Event Value)) (r : result (list string)).

(** ** Worlds and traces *)

Lemma extend_nil w : extend w (generator_state w) [] = w.
Proof. destruct w as [g t]. unfold extend. simpl. by rewrite app_nil_r. Qed.

Lemma extend_extend w g1 t1 g2 t2 :
  extend (extend w g1 t1) g2 t2 = extend w g2 (t1 ++ t2).
Proof. unfold extend. simpl. by rewrite app_assoc. Qed.

Lemma diagnostics_app t1 t2 :
  diagnostics (t1 ++ t2) = diagnostics t1 ++ diagnostics t2.
Proof. apply omap_app. Qed.

Lemma generation_calls_app t1 t2 :
  generation_calls (t1 ++ t2) = (generation_calls t1 + generation_calls t2)%nat.
Proof. unfold generation_calls. by rewrite List.filter_app, length_app. Qed.

Lemma conversion_calls_app t1 t2 :
  conversion_calls (t1 ++ t2) = (conversion_calls t1 + conversion_calls t2)%nat.
Proof. unfold conversion_calls. by rewrite List.filter_app, length_app. Qed.

Lemma diagnostics_print line t :
  diagnostics (Print line :: t) = line :: diagnostics t.
Proof. reflexivity. Qed.

Lemma generation_calls_print line t :
  generation_calls (Print line :: t) = generation_calls t.
Proof. reflexivity. Qed.

(** ** One attempt *)

Lemma shape_attempt_unfold s :
  shape_attempt generator s =
  bind (call (shape_generation generator s) (generation_event s))
    (fun llm_response =>
       bind (getitem0 llm_response)
         (fun first =>
            call (shape_conversion generator s first)
              (conversion_event s first))).
Proof. by destruct s. Qed.

(** The [try] block computes the outcome of the capability and records the
    events of the attempt. *)
Lemma shape_attempt_run s w :
  shape_attempt generator s w =
  (outcome_result (shape_outcome generator s (generator_state w)).1,
   extend w (shape_outcome generator s (generator_state w)).2
     (attempt_events generator s (generator_state w))).
Proof.
  rewrite shape_attempt_unfold.
  unfold shape_outcome, attempt_outcome, attempt_events, bind, call, extend.
  destruct (shape_generation generator s (generator_state w))
    as [[[|first rest]|e] g1]; simpl; try reflexivity.
  destruct (shape_conversion generator s first g1) as [[topics|e] g2];
    simpl; by rewrite <- app_assoc.
Qed.

Lemma attempt_events_diagnostics s g :
  diagnostics (attempt_events generator s g) = [].
Proof.
  unfold attempt_events.
  destruct (shape_generation generator s g) as [[[|first rest]|e] g1];
    by destruct s.
Qed.

Lemma attempt_events_generation_calls s g :
  generation_calls (attempt_events generator s g) = 1%nat.
Proof.
  unfold attempt_events.
  destruct (shape_generation generator s g) as [[[|first rest]|e] g1];
    by destruct s.
Qed.

(** ** One iteration *)

Lemma iteration_break s w topics g' :
  shape_outcome generator s (generator_state w) = (Converted topics, g') ->
  iteration (shape_attempt generator s) w =
  (Returns (Break topics),
   extend w g' (attempt_events generator s (generator_state w))).
Proof.
  intros Ho. unfold iteration, try_except_YamlConversionError, bind.
  by rewrite shape_attempt_run, Ho.
Qed.

Lemma iteration_retry s w o message g' :
  shape_outcome generator s (generator_state w) = (o, g') ->
  yaml_failure o = Some message ->
  iteration (shape_attempt generator s) w =
  (Returns NextIteration,
   extend w g'
     (attempt_events generator s (generator_state w) ++
      [Print (retry_message message)])).
Proof.
  intros Ho Hm. unfold iteration, try_except_YamlConversionError, bind.
  rewrite shape_attempt_run, Ho. simpl.
  destruct o as [[]| |[]|]; simplify_eq/=;
    unfold print, extend; simpl; by rewrite <- app_assoc.
Qed.

Lemma iteration_raise s w o e g' :
  shape_outcome generator s (generator_state w) = (o, g') ->
  propagated o = Some e ->
  iteration (shape_attempt generator s) w =
  (Raises e, extend w g' (attempt_events generator s (generator_state w))).
Proof.
  intros Ho He. unfold iteration, try_except_YamlConversionError, bind.
  rewrite shape_attempt_run, Ho. simpl.
  by destruct o as [[]| |[]|]; simplify_eq/=.
Qed.

(** Every outcome is of exactly one of the three kinds. *)
Lemma outcome_cases (o : Outcome) :
  (exists topics, o = Converted topics) \/
  (exists message, yaml_failure o = Some message) \/
  (exists e, propagated o = Some e).
Proof. destruct o as [[]| |[]|]; simpl; eauto. Qed.

(** ** The loop and its runs *)

Lemma retry_complete s n g t r g' :
  retry_run generator s n g t r g' ->
  forall w, generator_state w = g -> retry generator s n w = (r, extend w g' t).
Proof.
  unfold retry.
  induction 1 as [g|n g topics g' Ho|n g o message g1 t r g2 Ho Hm _ IH
                 |n g o e g1 Ho He]; intros w <-; simpl.
  - unfold ret. by rewrite extend_nil.
  - unfold bind. by rewrite (iteration_break _ _ _ _ Ho).
  - unfold bind at 1. rewrite (iteration_retry _ _ _ _ _ Ho Hm).
    rewrite IH by reflexivity. rewrite extend_extend.
    by rewrite <- app_assoc.
  - unfold bind. by rewrite (iteration_raise _ _ _ _ _ Ho He).
Qed.

Lemma retry_run_total s n : forall g, exists t r g', retry_run generator s n g t r g'.
Proof.
  induction n as [|n IH]; intros g.
  - eauto using retry_run.
  - destruct (shape_outcome generator s g) as [o g1] eqn:Ho.
    destruct (outcome_cases o) as [[topics ->]|[[message Hm]|[e He]]].
    + eauto using retry_run.
    + destruct (IH g1) as (t & r & g2 & Hrun). eauto using retry_run.
    + eauto using retry_run.
Qed.

(** Every call of the loop is one of its runs. *)
Lemma retry_sound s n w :
  exists t r g',
    retry generator s n w = (r, extend w g' t) /\
    retry_run generator s n (generator_state w) t r g'.
Proof.
  destruct (retry_run_total s n (generator_state w)) as (t & r & g' & Hrun).
  exists t, r, g'. split; [|done]. by apply (retry_complete _ _ _ _ _ _ Hrun).
Qed.

(** A call of the loop only reads the generator's state: what it returns
    and records is the same in front of any earlier trace. *)
Lemma retry_trace_independent s n w1 w2 :
  generator_state w1 = generator_state w2 ->
  exists t r g',
    retry generator s n w1 = (r, extend w1 g' t) /\
    retry generator s n w2 = (r, extend w2 g' t).
Proof.
  intros Hg.
  destruct (retry_run_total s n (generator_state w1)) as (t & r & g' & Hrun).
  exists t, r, g'. split; by apply (retry_complete _ _ _ _ _ _ Hrun).
Qed.

(** ** Failed attempts *)

Lemma conversion_failure_yaml (o : Outcome) message :
  conversion_failure o = Some message -> yaml_failure o = Some message.
Proof. by destruct o as [| |[]|]. Qed.

Lemma failed_attempts_conversion (outcome : G -> Outcome * G) k :
  forall g x,
    failed_attempts outcome conversion_failure k g = Some x ->
    failed_attempts outcome yaml_failure k g = Some x.
Proof.
  induction k as [|k IH]; intros g x; simpl; [done|].
  destruct (outcome g) as [o g1].
  destruct (conversion_failure o) as [message|] eqn:Hm; [|done].
  rewrite (conversion_failure_yaml _ _ Hm).
  destruct (failed_attempts outcome conversion_failure k g1) as [[ms g2]|]
    eqn:Hk; [|done].
  by rewrite (IH _ _ Hk).
Qed.

(** [k] failed attempts are [k] iterations of the loop, each with its
    generation call and its diagnostic; the loop then goes on from the state
    they leave. *)
Lemma run_after_failures s k :
  forall g messages g1,
    failed_attempts (shape_outcome generator s) yaml_failure k g
      = Some (messages, g1) ->
    exists t0,
      diagnostics t0 = retry_message <$> messages /\
      generation_calls t0 = k /\
      length messages = k /\
      forall n t r g2,
        retry_run generator s n g1 t r g2 ->
        retry_run generator s (k + n) g (t0 ++ t) r g2.
Proof.
  induction k as [|k IH]; intros g messages g1; simpl.
  - intros [= <- <-]. by exists [].
  - destruct (shape_outcome generator s g) as [o g'] eqn:Ho.
    destruct (yaml_failure o) as [message|] eqn:Hm; [|done].
    destruct (failed_attempts _ _ k g') as [[ms g2]|] eqn:Hk; [|done].
    intros [= <- <-].
    destruct (IH _ _ _ Hk) as (t0 & Hd & Hc & Hl & Hrun).
    exists (attempt_events generator s g ++ Print (retry_message message) :: t0).
    repeat split.
    + rewrite diagnostics_app, attempt_events_diagnostics.
      by rewrite diagnostics_print, Hd.
    + rewrite generation_calls_app, attempt_events_generation_calls.
      by rewrite generation_calls_print, Hc.
    + simpl. by rewrite Hl.
    + intros n t r g3 Hr. rewrite <- app_assoc. simpl.
      eapply run_retry; eauto.
Qed.

(** ** The events of an attempt, by its outcome *)


Lemma attempt_events_raised s g o e g' :
  shape_outcome generator s g = (o, g') ->
  raised o = Some e ->
  last (attempt_events generator s g) ≫= call_outcome = Some (Raises e).
Proof.
  unfold shape_outcome, attempt_outcome, attempt_events.
  destruct (shape_generation generator s g) as [[[|first rest]|e'] g1].
  - by intros [= <- <-].
  - destruct (shape_conversion generator s first g1) as [[l|e'] g2];
      intros [= <- <-]; [done|]. by intros [= <-].
  - intros [= <- <-] [= <-]. by destruct s.
Qed.

Lemma attempt_events_empty s g g' :
  shape_generation generator s g = (Returns [], g') ->
  shape_outcome generator s g = (EmptyResponse, g') /\
  attempt_events generator s g = [generation_event s (Returns [])].
Proof.
  unfold shape_outcome, attempt_outcome, attempt_events. by intros ->.
Qed.

Lemma attempt_events_generation_raised s g e g' :
  shape_generation generator s g = (Raises e, g') ->
  shape_outcome generator s g = (GenerationRaised e, g') /\
  attempt_events generator s g = [generation_event s (Raises e)].
Proof.
  unfold shape_outcome, attempt_outcome, attempt_events. by intros ->.
Qed.

(** ** The loop under a given behaviour of the capability *)

Lemma retry_succeeds_after_failures s n k w messages g1 topics g2 :
  (k < n)%nat ->
  failed_attempts (shape_outcome generator s) conversion_failure k
    (generator_state w) = Some (messages, g1) ->
  shape_outcome generator s g1 = (Converted topics, g2) ->
  exists t,
    retry generator s n w = (Returns topics, extend w g2 t) /\
    diagnostics t = retry_message <$> messages /\
    length (diagnostics t) = k.
Proof.
  intros Hk Hf Ho. apply failed_attempts_conversion in Hf.
  destruct (run_after_failures _ _ _ _ _ Hf) as (t0 & Hd & _ & Hl & Hrun).
  exists (t0 ++ attempt_events generator s g1).
  assert (Hd' : diagnostics (t0 ++ attempt_events generator s g1)
                = retry_message <$> messages).
  { by rewrite diagnostics_app, attempt_events_diagnostics, app_nil_r. }
  split; [|split; [done|]].
  - replace n with (k + S (n - S k))%nat by lia.
    eapply retry_complete; [|done]. apply Hrun. by apply run_break.
  - by rewrite Hd', length_fmap.
Qed.

Lemma retry_exhausted s n w messages g1 :
  failed_attempts (shape_outcome generator s) conversion_failure n
    (generator_state w) = Some (messages, g1) ->
  exists t,
    retry generator s n w = (Returns [], extend w g1 t) /\
    diagnostics t = retry_message <$> messages /\
    length (diagnostics t) = n.
Proof.
  intros Hf. apply failed_attempts_conversion in Hf.
  destruct (run_after_failures _ _ _ _ _ Hf) as (t0 & Hd & _ & Hl & Hrun).
  exists t0. split; [|split; [done|]].
  - eapply retry_complete; [|done].
    specialize (Hrun 0%nat [] (Returns []) g1 (run_exhausted _ _ _)).
    by rewrite Nat.add_0_r, app_nil_r in Hrun.
  - by rewrite Hd, length_fmap.
Qed.

Lemma retry_propagates s n k w messages g1 o e g2 :
  (k < n)%nat ->
  failed_attempts (shape_outcome generator s) yaml_failure k
    (generator_state w) = Some (messages, g1) ->
  shape_outcome generator s g1 = (o, g2) ->
  raised o = Some e ->
  is_yaml_conversion_error e = false ->
  exists t,
    retry generator s n w = (Raises e, extend w g2 t) /\
    diagnostics t = retry_message <$> messages /\
    generation_calls t = S k /\
    last t ≫= call_outcome = Some (Raises e).
Proof.
  intros Hk Hf Ho He Hy.
  destruct (run_after_failures _ _ _ _ _ Hf) as (t0 & Hd & Hc & _ & Hrun).
  exists (t0 ++ attempt_events generator s g1). repeat split.
  - replace n with (k + S (n - S k))%nat by lia.
    eapply retry_complete; [|done]. apply Hrun.
    eapply run_raise; [done|].
    destruct o; simplify_eq/=; by rewrite Hy.
  - by rewrite diagnostics_app, attempt_events_diagnostics, app_nil_r.
  - rewrite generation_calls_app, attempt_events_generation_calls. lia.
  - pose proof (attempt_events_raised _ _ _ _ _ Ho He) as Hlast.
    destruct (last (attempt_events generator s g1)) as [ev|] eqn:Hev;
      [|done].
    by rewrite last_app, Hev.
Qed.

Lemma retry_empty_response s n k w messages g1 g2 :
  (k < n)%nat ->
  failed_attempts (shape_outcome generator s) yaml_failure k
    (generator_state w) = Some (messages, g1) ->
  shape_generation generator s g1 = (Returns [], g2) ->
  exists t,
    retry generator s n w
      = (Raises (IndexError "list index out of range"), extend w g2 t) /\
    diagnostics t = retry_message <$> messages /\
    generation_calls t = S k /\
    last t = Some (generation_event s (Returns [])).
Proof.
  intros Hk Hf Hg.
  destruct (attempt_events_empty _ _ _ Hg) as [Ho Hev].
  destruct (run_after_failures _ _ _ _ _ Hf) as (t0 & Hd & Hc & _ & Hrun).
  exists (t0 ++ attempt_events generator s g1). repeat split.
  - replace n with (k + S (n - S k))%nat by lia.
    eapply retry_complete; [|done]. apply Hrun.
    by eapply run_raise.
  - by rewrite diagnostics_app, attempt_events_diagnostics, app_nil_r.
  - rewrite generation_calls_app, attempt_events_generation_calls. lia.
  - by rewrite last_app, Hev.
Qed.

(** A conversion error raised by the generation operation ends the iteration
    with a diagnostic, and the loop goes on with one iteration less. *)
Lemma retry_generation_failure s n w message g1 :
  shape_generation generator s (generator_state w)
    = (Raises (YamlConversionError message), g1) ->
  retry generator s (S n) w =
  retry generator s n
    (extend w g1
       [generation_event s (Raises (YamlConversionError message));
        Print (retry_message message)]).
Proof.
  intros Hg. destruct (attempt_events_generation_raised _ _ _ _ Hg) as [Ho Hev].
  unfold retry. simpl. unfold bind at 1.
  rewrite (iteration_retry _ _ _ message _ Ho) by done.
  by rewrite Hev.
Qed.

(** The same for a conversion error raised by the conversion step. *)
Lemma retry_conversion_failure s n w first rest g1 message g2 :
  shape_generation generator s (generator_state w)
    = (Returns (first :: rest), g1) ->
  shape_conversion generator s first g1
    = (Raises (YamlConversionError message), g2) ->
  retry generator s (S n) w =
  retry generator s n
    (extend w g2
       [generation_event s (Returns (first :: rest));
        conversion_event s first (Raises (YamlConversionError message));
        Print (retry_message message)]).
Proof.
  intros Hg Hc.
  assert (Ho : shape_outcome generator s (generator_state w)
               = (ConversionRaised (YamlConversionError message), g2)).
  { unfold shape_outcome, attempt_outcome. by rewrite Hg, Hc. }
  unfold retry. simpl. unfold bind at 1.
  rewrite (iteration_retry _ _ _ message _ Ho) by done.
  unfold attempt_events. by rewrite Hg, Hc.
Qed.

(** ** What holds of every run *)



(** ** The two functions are the loop of their shape *)

Lemma generate_subtopics_retry model model_kwargs macro_topic n_subtopics
    prompt_template n_retries :
  generate_subtopics generator model model_kwargs macro_topic n_subtopics
    prompt_template n_retries
  = retry generator
      (SubtopicsShape model model_kwargs macro_topic n_subtopics
         prompt_template)
      (Z.to_nat n_retries).
Proof. reflexivity. Qed.

Lemma generate_macro_topics_retry model model_kwargs n_macro_topics
    prompt_template n_retries :
  generate_macro_topics generator model model_kwargs n_macro_topics
    prompt_template n_retries
  = retry generator
      (MacroTopicsShape model model_kwargs n_macro_topics prompt_template)
      (Z.to_nat n_retries).
Proof. reflexivity. Qed.

(** When the first attempt converts, its list is returned and nothing is
    printed. *)
Corollary first_attempt_succeeds s n w topics g' :
  (0 < n)%nat ->
  shape_outcome generator s (generator_state w) = (Converted topics, g') ->
  exists t,
    retry generator s n w = (Returns topics, extend w g' t) /\
    diagnostics t = [].
Proof.
  intros Hn Ho.
  destruct (retry_succeeds_after_failures s n 0 w [] (generator_state w)
              topics g' Hn eq_refl Ho) as (t & Hret & Hd & _).
  by exists t.
Qed.

(** ** One attempt after failed ones *)

(** After [k] failed attempts the loop is the loop with [k] iterations less,
    from the world those attempts leave. *)
Lemma retry_after_failures s k w messages g1 :
  failed_attempts (shape_outcome generator s) yaml_failure k
    (generator_state w) = Some (messages, g1) ->
  exists t0,
    diagnostics t0 = retry_message <$> messages /\
    generation_calls t0 = k /\
    forall n,
      retry generator s (k + n) w = retry generator s n (extend w g1 t0).
Proof.
  intros Hf.
  destruct (run_after_failures _ _ _ _ _ Hf) as (t0 & Hd & Hc & _ & Hrun).
  exists t0. split; [done|split; [done|]]. intros n.
  destruct (retry_sound s n (extend w g1 t0)) as (t & r & g' & Heq & Hrun').
  rewrite Heq, extend_extend.
  eapply retry_complete; [|done]. by apply Hrun.
Qed.

(** An iteration whose generation call returns a non-empty collection is
    decided by the conversion of the first element of the collection. *)
Lemma retry_attempt_converts s m w first rest g2 :
  shape_generation generator s (generator_state w)
    = (Returns (first :: rest), g2) ->
  retry generator s (S m) w =
  match shape_conversion generator s first g2 with
  | (Returns topics, g3) =>
      (Returns topics,
       extend w g3
         [generation_event s (Returns (first :: rest));
          conversion_event s first (Returns topics)])
  | (Raises (YamlConversionError message), g3) =>
      retry generator s m
        (extend w g3
           [generation_event s (Returns (first :: rest));
            conversion_event s first (Raises (YamlConversionError message));
            Print (retry_message message)])
  | (Raises e, g3) =>
      (Raises e,
       extend w g3
         [generation_event s (Returns (first :: rest));
          conversion_event s first (Raises e)])
  end.
Proof.
  intros Hg.
  destruct (shape_conversion generator s first g2) as [[topics|e] g3] eqn:Hc.
  - assert (Ho : shape_outcome generator s (generator_state w)
                 = (Converted topics, g3)).
    { unfold shape_outcome, attempt_outcome. by rewrite Hg, Hc. }
    unfold retry. simpl. unfold bind at 1.
    rewrite (iteration_break _ _ _ _ Ho).
    unfold attempt_events. by rewrite Hg, Hc.
  - assert (Ho : shape_outcome generator s (generator_state w)
                 = (ConversionRaised e, g3)).
    { unfold shape_outcome, attempt_outcome. by rewrite Hg, Hc. }
    destruct e as [message|message|class_name message].
    + by apply (retry_conversion_failure s m w first rest g2 message g3).
    + unfold retry. simpl. unfold bind at 1.
      rewrite (iteration_raise _ _ _ (IndexError message) _ Ho) by done.
      unfold attempt_events. by rewrite Hg, Hc.
    + unfold retry. simpl. unfold bind at 1.
      rewrite (iteration_raise _ _ _ (OtherError class_name message) _ Ho)
        by done.
      unfold attempt_events. by rewrite Hg, Hc.
Qed.

Lemma attempt_events_last_conversion s g first rest g2 :
  shape_generation generator s g = (Returns (first :: rest), g2) ->
  last (attempt_events generator s g)
  = Some (conversion_event s first
            (shape_conversion generator s first g2).1).
Proof. unfold attempt_events. by intros ->. Qed.

(** * Specification *)

(** C1.  If the conversion step raises a conversion error on exactly the
    first [k] attempts, with [k < n_retries], and converts on the next one,
    then [generate_subtopics] (resp. [generate_macro_topics]) returns the
    list of that conversion and prints exactly [k] diagnostics, one per
    failed attempt and in their order.  With [k = 0] this is the case of a
    first attempt that converts: nothing is printed. *)
Theorem retries_until_conversion_succeeds
    (model : string) (model_kwargs : gmap string Value)
    (macro_topic : string) (n_subtopics n_macro_topics : Z)
    (prompt_template : string) (n_retries : Z) (k : nat) (w : World G Value)
    (messages : list string) (g1 : G) (topics : list string) (g2 : G) :
  Z.of_nat k < n_retries ->
  (failed_attempts
     (subtopics_outcome generator model model_kwargs macro_topic n_subtopics
        prompt_template)
     conversion_failure k (generator_state w) = Some (messages, g1) ->
   subtopics_outcome generator model model_kwargs macro_topic n_subtopics
     prompt_template g1 = (Converted topics, g2) ->
   exists t,
     generate_subtopics generator model model_kwargs macro_topic n_subtopics
       prompt_template n_retries w = (Returns topics, extend w g2 t) /\
     diagnostics t = retry_message <$> messages /\
     length (diagnostics t) = k)
  /\
  (failed_attempts
     (macro_topics_outcome generator model model_kwargs n_macro_topics
        prompt_template)
     conversion_failure k (generator_state w) = Some (messages, g1) ->
   macro_topics_outcome generator model model_kwargs n_macro_topics
     prompt_template g1 = (Converted topics, g2) ->
   exists t,
     generate_macro_topics generator model model_kwargs n_macro_topics
       prompt_template n_retries w = (Returns topics, extend w g2 t) /\
     diagnostics t = retry_message <$> messages /\
     length (diagnostics t) = k).
Proof.
  intros Hk. split; intros Hf Ho.
  - rewrite generate_subtopics_retry.
    eapply retry_succeeds_after_failures; [lia|exact Hf|exact Ho].
  - rewrite generate_macro_topics_retry.
    eapply retry_succeeds_after_failures; [lia|exact Hf|exact Ho].
Qed.

(** C2.  If the conversion step raises a conversion error on every one of
    the [n_retries] attempts, then [generate_subtopics] (resp.
    [generate_macro_topics]) returns the empty list, without raising, and
    prints exactly [n_retries] diagnostics. *)
Theorem exhausted_retries_return_empty
    (model : string) (model_kwargs : gmap string Value)
    (macro_topic : string) (n_subtopics n_macro_topics : Z)
    (prompt_template : string) (n_retries : Z) (w : World G Value)
    (messages : list string) (g1 : G) :
  0 <= n_retries ->
  (failed_attempts
     (subtopics_outcome generator model model_kwargs macro_topic n_subtopics
        prompt_template)
     conversion_failure (Z.to_nat n_retries) (generator_state w)
     = Some (messages, g1) ->
   exists t,
     generate_subtopics generator model model_kwargs macro_topic n_subtopics
       prompt_template n_retries w = (Returns [], extend w g1 t) /\
     diagnostics t = retry_message <$> messages /\
     Z.of_nat (length (diagnostics t)) = n_retries)
  /\
  (failed_attempts
     (macro_topics_outcome generator model model_kwargs n_macro_topics
        prompt_template)
     conversion_failure (Z.to_nat n_retries) (generator_state w)
     = Some (messages, g1) ->
   exists t,
     generate_macro_topics generator model model_kwargs n_macro_topics
       prompt_template n_retries w = (Returns [], extend w g1 t) /\
     diagnostics t = retry_message <$> messages /\
     Z.of_nat (length (diagnostics t)) = n_retries).
Proof.
  intros Hn. split; intros Hf.
  - rewrite generate_subtopics_retry.
    destruct (retry_exhausted
                (SubtopicsShape model model_kwargs macro_topic n_subtopics
                   prompt_template) _ _ _ _ Hf) as (t & Hret & Hd & Hl).
    exists t. repeat split; [done|done|lia].
  - rewrite generate_macro_topics_retry.
    destruct (retry_exhausted
                (MacroTopicsShape model model_kwargs n_macro_topics
                   prompt_template) _ _ _ _ Hf) as (t & Hret & Hd & Hl).
    exists t. repeat split; [done|done|lia].
Qed.

(** C3.  If, after [k < n_retries] attempts that failed with a conversion
    error, the capability raises an exception [e] that is not a
    [YamlConversionError], in the generation or in the conversion, then
    [generate_subtopics] (resp. [generate_macro_topics]) raises [e]: the
    call that raised is the last event, there are [k + 1] generation calls
    and so no further attempt, and the diagnostics are those of the [k]
    earlier attempts, none for this one. *)
Theorem other_errors_propagate
    (model : string) (model_kwargs : gmap string Value)
    (macro_topic : string) (n_subtopics n_macro_topics : Z)
    (prompt_template : string) (n_retries : Z) (k : nat) (w : World G Value)
    (messages : list string) (g1 : G) (o : Outcome) (e : exn) (g2 : G) :
  Z.of_nat k < n_retries ->
  raised o = Some e ->
  is_yaml_conversion_error e = false ->
  (failed_attempts
     (subtopics_outcome generator model model_kwargs macro_topic n_subtopics
        prompt_template)
     yaml_failure k (generator_state w) = Some (messages, g1) ->
   subtopics_outcome generator model model_kwargs macro_topic n_subtopics
     prompt_template g1 = (o, g2) ->
   exists t,
     generate_subtopics generator model model_kwargs macro_topic n_subtopics
       prompt_template n_retries w = (Raises e, extend w g2 t) /\
     diagnostics t = retry_message <$> messages /\
     generation_calls t = S k /\
     last t ≫= call_outcome = Some (Raises e))
  /\
  (failed_attempts
     (macro_topics_outcome generator model model_kwargs n_macro_topics
        prompt_template)
     yaml_failure k (generator_state w) = Some (messages, g1) ->
   macro_topics_outcome generator model model_kwargs n_macro_topics
     prompt_template g1 = (o, g2) ->
   exists t,
     generate_macro_topics generator model model_kwargs n_macro_topics
       prompt_template n_retries w = (Raises e, extend w g2 t) /\
     diagnostics t = retry_message <$> messages /\
     generation_calls t = S k /\
     last t ≫= call_outcome = Some (Raises e)).
Proof.
  intros Hk He Hy. split; intros Hf Ho.
  - rewrite generate_subtopics_retry.
    eapply retry_propagates; [lia|exact Hf|exact Ho|exact He|exact Hy].
  - rewrite generate_macro_topics_retry.
    eapply retry_propagates; [lia|exact Hf|exact Ho|exact He|exact Hy].
Qed.


(** C5.  With [n_retries = 0], [generate_subtopics] and
    [generate_macro_topics] return the empty list and leave the world as it
    was: the generator's state is untouched and the trace has no new event,
    neither a call on the generator nor a diagnostic. *)
Theorem zero_retries_return_empty
    (model : string) (model_kwargs : gmap string Value)
    (macro_topic : string) (n_subtopics n_macro_topics : Z)
    (prompt_template : string) (w : World G Value) :
  generate_subtopics generator model model_kwargs macro_topic n_subtopics
    prompt_template 0 w = (Returns [], w)
  /\
  generate_macro_topics generator model model_kwargs n_macro_topics
    prompt_template 0 w = (Returns [], w).
Proof. split; reflexivity. Qed.

(** C6.  On every attempt the conversion is given the first element of
    the response and nothing else of it.  After [k < n_retries] attempts
    that failed with a conversion error, if the generation operation returns
    [first :: rest], then what [generate_subtopics] (resp.
    [generate_macro_topics]) does is decided by
    [convert_response_to_yaml_list] on [first], called in the state the
    generation left: its list is returned, its exception of another class is
    raised, and on its conversion error the call goes on with the retries
    that are left, in each case from the state that one conversion call
    left.  [rest] plays no part. *)
Theorem first_item_is_converted
    (model : string) (model_kwargs : gmap string Value)
    (macro_topic : string) (n_subtopics n_macro_topics : Z)
    (prompt_template : string) (n_retries : Z) (k : nat) (w : World G Value)
    (messages : list string) (g1 : G) (first : string) (rest : list string)
    (g2 : G) :
  Z.of_nat k < n_retries ->
  (failed_attempts
     (subtopics_outcome generator model model_kwargs macro_topic n_subtopics
        prompt_template)
     yaml_failure k (generator_state w) = Some (messages, g1) ->
   gen_generate_subtopics generator model model_kwargs macro_topic
     n_subtopics prompt_template g1 = (Returns (first :: rest), g2) ->
   exists t0,
     diagnostics t0 = retry_message <$> messages /\
     generation_calls t0 = k /\
     generate_subtopics generator model model_kwargs macro_topic n_subtopics
       prompt_template n_retries w
     = match gen_convert_response_to_yaml_list generator first model None g2
       with
       | (Returns topics, g3) =>
           (Returns topics,
            extend w g3
              (t0 ++
               [GenerateSubtopics model model_kwargs macro_topic n_subtopics
                  prompt_template (Returns (first :: rest));
                ConvertResponseToYamlList first model None
                  (Returns topics)]))
       | (Raises (YamlConversionError message), g3) =>
           generate_subtopics generator model model_kwargs macro_topic
             n_subtopics prompt_template (n_retries - Z.of_nat k - 1)
             (extend w g3
                (t0 ++
                 [GenerateSubtopics model model_kwargs macro_topic
                    n_subtopics prompt_template (Returns (first :: rest));
                  ConvertResponseToYamlList first model None
                    (Raises (YamlConversionError message));
                  Print (retry_message message)]))
       | (Raises e, g3) =>
           (Raises e,
            extend w g3
              (t0 ++
               [GenerateSubtopics model model_kwargs macro_topic n_subtopics
                  prompt_template (Returns (first :: rest));
                ConvertResponseToYamlList first model None (Raises e)]))
       end)
  /\
  (failed_attempts
     (macro_topics_outcome generator model model_kwargs n_macro_topics
        prompt_template)
     yaml_failure k (generator_state w) = Some (messages, g1) ->
   gen_generate_macro_topics generator n_macro_topics model model_kwargs
     prompt_template g1 = (Returns (first :: rest), g2) ->
   exists t0,
     diagnostics t0 = retry_message <$> messages /\
     generation_calls t0 = k /\
     generate_macro_topics generator model model_kwargs n_macro_topics
       prompt_template n_retries w
     = match gen_convert_response_to_yaml_list generator first model
               (Some model_kwargs) g2
       with
       | (Returns topics, g3) =>
           (Returns topics,
            extend w g3
              (t0 ++
               [GenerateMacroTopics n_macro_topics model model_kwargs
                  prompt_template (Returns (first :: rest));
                ConvertResponseToYamlList first model (Some model_kwargs)
                  (Returns topics)]))
       | (Raises (YamlConversionError message), g3) =>
           generate_macro_topics generator model model_kwargs n_macro_topics
             prompt_template (n_retries - Z.of_nat k - 1)
             (extend w g3
                (t0 ++
                 [GenerateMacroTopics n_macro_topics model model_kwargs
                    prompt_template (Returns (first :: rest));
                  ConvertResponseToYamlList first model (Some model_kwargs)
                    (Raises (YamlConversionError message));
                  Print (retry_message message)]))
       | (Raises e, g3) =>
           (Raises e,
            extend w g3
              (t0 ++
               [GenerateMacroTopics n_macro_topics model model_kwargs
                  prompt_template (Returns (first :: rest));
                ConvertResponseToYamlList first model (Some model_kwargs)
                  (Raises e)]))
       end).
Proof.
  intros Hk.
  assert (Hn : Z.to_nat n_retries
               = (k + S (Z.to_nat (n_retries - Z.of_nat k - 1)))%nat) by lia.
  split; intros Hf Hg.
  - destruct (retry_after_failures
                (SubtopicsShape model model_kwargs macro_topic n_subtopics
                   prompt_template) k w messages g1 Hf)
      as (t0 & Hd & Hc & Hrest).
    exists t0. split; [exact Hd|split; [exact Hc|]].
    rewrite generate_subtopics_retry, Hn, Hrest.
    rewrite (retry_attempt_converts
               (SubtopicsShape model model_kwargs macro_topic n_subtopics
                  prompt_template) _ (extend w g1 t0) first rest g2 Hg).
    unfold shape_conversion, conversion_event.
    cbn [shape_model forwarded_kwargs generation_event].
    destruct (gen_convert_response_to_yaml_list generator first model None g2)
      as [[topics|[message|message|class_name message]] g3];
      by rewrite extend_extend.
  - destruct (retry_after_failures
                (MacroTopicsShape model model_kwargs n_macro_topics
                   prompt_template) k w messages g1 Hf)
      as (t0 & Hd & Hc & Hrest).
    exists t0. split; [exact Hd|split; [exact Hc|]].
    rewrite generate_macro_topics_retry, Hn, Hrest.
    rewrite (retry_attempt_converts
               (MacroTopicsShape model model_kwargs n_macro_topics
                  prompt_template) _ (extend w g1 t0) first rest g2 Hg).
    unfold shape_conversion, conversion_event.
    cbn [shape_model forwarded_kwargs generation_event].
    destruct (gen_convert_response_to_yaml_list generator first model
                (Some model_kwargs) g2)
      as [[topics|[message|message|class_name message]] g3];
      by rewrite extend_extend.
Qed.

(** C8.  If the generation operation itself raises a conversion error and
    [0 < n_retries], the error is caught: the call goes on as a call with
    [n_retries - 1] retries, from the world in which the generation call
    that raised and one diagnostic have been recorded.  This is what
    [retry_conversion_failure] shows for the conversion step. *)
Theorem generation_conversion_error_is_retried
    (model : string) (model_kwargs : gmap string Value)
    (macro_topic : string) (n_subtopics n_macro_topics : Z)
    (prompt_template : string) (n_retries : Z) (w : World G Value)
    (message : string) (g1 : G) :
  0 < n_retries ->
  (gen_generate_subtopics generator model model_kwargs macro_topic
     n_subtopics prompt_template (generator_state w)
     = (Raises (YamlConversionError message), g1) ->
   generate_subtopics generator model model_kwargs macro_topic n_subtopics
     prompt_template n_retries w
   = generate_subtopics generator model model_kwargs macro_topic n_subtopics
       prompt_template (n_retries - 1)
       (extend w g1
          [GenerateSubtopics model model_kwargs macro_topic n_subtopics
             prompt_template (Raises (YamlConversionError message));
           Print (retry_message message)]))
  /\
  (gen_generate_macro_topics generator n_macro_topics model model_kwargs
     prompt_template (generator_state w)
     = (Raises (YamlConversionError message), g1) ->
   generate_macro_topics generator model model_kwargs n_macro_topics
     prompt_template n_retries w
   = generate_macro_topics generator model model_kwargs n_macro_topics
       prompt_template (n_retries - 1)
       (extend w g1
          [GenerateMacroTopics n_macro_topics model model_kwargs
             prompt_template (Raises (YamlConversionError message));
           Print (retry_message message)])).
Proof.
  intros Hn.
  assert (Hs : Z.to_nat n_retries = S (Z.to_nat (n_retries - 1))) by lia.
  split; intros Hg.
  - rewrite !generate_subtopics_retry, Hs.
    exact (retry_generation_failure
             (SubtopicsShape model model_kwargs macro_topic n_subtopics
                prompt_template) _ _ _ _ Hg).
  - rewrite !generate_macro_topics_retry, Hs.
    exact (retry_generation_failure
             (MacroTopicsShape model model_kwargs n_macro_topics
                prompt_template) _ _ _ _ Hg).
Qed.

(** C9.  If, after [k < n_retries] attempts that failed with a conversion
    error, the generation operation returns an empty collection, then
    [generate_subtopics] (resp. [generate_macro_topics]) raises the
    [IndexError] of [llm_response[0]]: no list is returned, the generation
    call is the last event, so that no conversion, diagnostic or further
    attempt follows it. *)
Theorem empty_response_raises_index_error
    (model : string) (model_kwargs : gmap string Value)
    (macro_topic : string) (n_subtopics n_macro_topics : Z)
    (prompt_template : string) (n_retries : Z) (k : nat) (w : World G Value)
    (messages : list string) (g1 g2 : G) :
  Z.of_nat k < n_retries ->
  (failed_attempts
     (subtopics_outcome generator model model_kwargs macro_topic n_subtopics
        prompt_template)
     yaml_failure k (generator_state w) = Some (messages, g1) ->
   gen_generate_subtopics generator model model_kwargs macro_topic
     n_subtopics prompt_template g1 = (Returns [], g2) ->
   exists t,
     generate_subtopics generator model model_kwargs macro_topic n_subtopics
       prompt_template n_retries w
     = (Raises (IndexError "list index out of range"), extend w g2 t) /\
     diagnostics t = retry_message <$> messages /\
     generation_calls t = S k /\
     last t = Some (GenerateSubtopics model model_kwargs macro_topic
                      n_subtopics prompt_template (Returns [])))
  /\
  (failed_attempts
     (macro_topics_outcome generator model model_kwargs n_macro_topics
        prompt_template)
     yaml_failure k (generator_state w) = Some (messages, g1) ->
   gen_generate_macro_topics generator n_macro_topics model model_kwargs
     prompt_template g1 = (Returns [], g2) ->
   exists t,
     generate_macro_topics generator model model_kwargs n_macro_topics
       prompt_template n_retries w
     = (Raises (IndexError "list index out of range"), extend w g2 t) /\
     diagnostics t = retry_message <$> messages /\
     generation_calls t = S k /\
     last t = Some (GenerateMacroTopics n_macro_topics model model_kwargs
                      prompt_template (Returns []))).
Proof.
  intros Hk. split; intros Hf Hg.
  - rewrite generate_subtopics_retry.
    refine (retry_empty_response
              (SubtopicsShape model model_kwargs macro_topic n_subtopics
                 prompt_template) _ k _ _ _ _ _ Hf Hg).
    lia.
  - rewrite generate_macro_topics_retry.
    refine (retry_empty_response
              (MacroTopicsShape model model_kwargs n_macro_topics
                 prompt_template) _ k _ _ _ _ _ Hf Hg).
    lia.
Qed.

(** C10.  [generate_subtopics] and [generate_macro_topics] keep no state of
    their own: two calls with the same arguments whose generator is in the
    same state return the same result, record the same events, diagnostics
    included, and leave the generator in the same state, whatever was
    recorded before either of them. *)
Theorem runs_depend_on_generator_state_only
    (model : string) (model_kwargs : gmap string Value)
    (macro_topic : string) (n_subtopics n_macro_topics : Z)
    (prompt_template : string) (n_retries : Z) (w1 w2 : World G Value) :
  generator_state w1 = generator_state w2 ->
  (exists t r g',
     generate_subtopics generator model model_kwargs macro_topic n_subtopics
       prompt_template n_retries w1 = (r, extend w1 g' t) /\
     generate_subtopics generator model model_kwargs macro_topic n_subtopics
       prompt_template n_retries w2 = (r, extend w2 g' t))
  /\
  (exists t r g',
     generate_macro_topics generator model model_kwargs n_macro_topics
       prompt_template n_retries w1 = (r, extend w1 g' t) /\
     generate_macro_topics generator model model_kwargs n_macro_topics
       prompt_template n_retries w2 = (r, extend w2 g' t)).
Proof.
  intros Hg. split.
  - exact (retry_trace_independent
             (SubtopicsShape model model_kwargs macro_topic n_subtopics
                prompt_template) (Z.to_nat n_retries) w1 w2 Hg).
  - exact (retry_trace_independent
             (MacroTopicsShape model model_kwargs n_macro_topics
                prompt_template) (Z.to_nat n_retries) w1 w2 Hg).
Qed.

(** * Further properties of the loop *)

Lemma conversion_calls_print line t :
  conversion_calls (Print line :: t) = conversion_calls t.
Proof. reflexivity. Qed.

Lemma attempt_events_conversion_calls s g :
  (conversion_calls (attempt_events generator s g) <= 1)%nat.
Proof.
  unfold attempt_events.
  destruct (shape_generation generator s g) as [[[|first rest]|e] g1];
    destruct s; unfold conversion_calls; simpl; lia.
Qed.

(** The calls and the diagnostics of a run, counted. *)
Lemma run_budget s n g t r g' :
  retry_run generator s n g t r g' ->
  (generation_calls t <= n)%nat /\
  (conversion_calls t <= generation_calls t)%nat /\
  (length (diagnostics t) <= generation_calls t)%nat.
Proof.
  induction 1 as [g|n g l g' Ho|n g o message g1 t r g2 Ho Hm _ IH
                 |n g o e g1 Ho He].
  - unfold generation_calls, conversion_calls. simpl. lia.
  - pose proof (attempt_events_conversion_calls s g).
    rewrite attempt_events_generation_calls, attempt_events_diagnostics.
    simpl. lia.
  - pose proof (attempt_events_conversion_calls s g).
    rewrite generation_calls_app, conversion_calls_app, diagnostics_app.
    rewrite attempt_events_generation_calls, attempt_events_diagnostics.
    rewrite generation_calls_print, conversion_calls_print.
    rewrite diagnostics_print. simpl. lia.
  - pose proof (attempt_events_conversion_calls s g).
    rewrite attempt_events_generation_calls, attempt_events_diagnostics.
    simpl. lia.
Qed.

Lemma propagated_not_yaml (o : Outcome) e :
  propagated o = Some e -> is_yaml_conversion_error e = false.
Proof.
  destruct o as [e'| |e'|]; simpl; try done.
  - destruct (is_yaml_conversion_error e') eqn:Hy; [done|]. by intros [= <-].
  - by intros [= <-].
  - destruct (is_yaml_conversion_error e') eqn:Hy; [done|]. by intros [= <-].
Qed.

Lemma run_never_raises_yaml s n g t e g' :
  retry_run generator s n g t (Raises e) g' ->
  is_yaml_conversion_error e = false.
Proof.
  intros Hrun. remember (Raises e) as r eqn:Hr.
  induction Hrun as [g|n g l g' Ho|n g o message g1 t r g2 Ho Hm _ IH
                    |n g o e' g1 Ho He]; simplify_eq.
  - by apply IH.
  - by eapply propagated_not_yaml.
Qed.

(** A run that printed fewer diagnostics than it had iterations ended before
    the last of them, and is a run of any longer loop. *)
Lemma run_unused_iterations s n g t r g' :
  retry_run generator s n g t r g' ->
  (length (diagnostics t) < n)%nat ->
  forall m, (n <= m)%nat -> retry_run generator s m g t r g'.
Proof.
  induction 1 as [g|n g l g' Ho|n g o message g1 t r g2 Ho Hm _ IH
                 |n g o e g1 Ho He]; intros Hd m Hle.
  - simpl in Hd. lia.
  - destruct m as [|m]; [lia|]. by apply run_break.
  - destruct m as [|m]; [lia|].
    rewrite diagnostics_app, attempt_events_diagnostics in Hd.
    rewrite diagnostics_print in Hd. simpl in Hd.
    eapply run_retry; [done|done|]. apply IH; lia.
  - destruct m as [|m]; [lia|]. by eapply run_raise.
Qed.

(** A run that printed as many diagnostics as it had iterations used them
    all up, and any run from the state it left continues it. *)
Lemma run_exhausted_then s a g t r g1 :
  retry_run generator s a g t r g1 ->
  length (diagnostics t) = a ->
  forall b t' r' g2,
    retry_run generator s b g1 t' r' g2 ->
    retry_run generator s (a + b) g (t ++ t') r' g2.
Proof.
  induction 1 as [g|n g l g' Ho|n g o message g1 t r g2 Ho Hm _ IH
                 |n g o e g1 Ho He]; intros Hd b t' r' g3 Hrun.
  - done.
  - by rewrite attempt_events_diagnostics in Hd.
  - rewrite diagnostics_app, attempt_events_diagnostics in Hd.
    rewrite diagnostics_print in Hd. simpl in Hd.
    rewrite <- app_assoc. simpl.
    eapply run_retry; [done|done|]. apply IH; [lia|done].
  - by rewrite attempt_events_diagnostics in Hd.
Qed.

Lemma run_diagnostics_follow_errors s n g t r g' :
  retry_run generator s n g t r g' -> diagnostics_follow_errors t = true.
Proof.
  induction 1 as [g|n g l g' Ho|n g o message g1 t r g2 Ho Hm _ IH
                 |n g o e g1 Ho He]; [done| | |].
  - revert Ho. unfold shape_outcome, attempt_outcome, attempt_events.
    destruct (shape_generation generator s g) as [[[|first rest]|e] g1];
      [done| |done].
    destruct (shape_conversion generator s first g1) as [[topics|e] g2];
      [|done].
    intros _. by destruct s.
  - revert Ho Hm. unfold shape_outcome, attempt_outcome, attempt_events.
    destruct (shape_generation generator s g) as [[[|first rest]|e] g1'].
    + by intros [= <- <-].
    + destruct (shape_conversion generator s first g1') as [[topics|e] g2'];
        intros [= <- <-]; [done|].
      destruct e; [|done|done]. intros [= <-].
      destruct s; simpl; by rewrite String.eqb_refl.
    + intros [= <- <-]. destruct e; [|done|done]. intros [= <-].
      destruct s; simpl; by rewrite String.eqb_refl.
  - revert Ho He. unfold shape_outcome, attempt_outcome, attempt_events.
    destruct (shape_generation generator s g) as [[[|first rest]|e'] g1'].
    + intros [= <- <-] _. by destruct s.
    + destruct (shape_conversion generator s first g1') as [[topics|e'] g2'];
        intros [= <- <-]; [done|].
      destruct e'; [done| |]; intros _; by destruct s.
    + intros [= <- <-]. destruct e'; [done| |]; intros _; by destruct s.
Qed.

(** Two shapes the generator does not tell apart have the same runs, up to
    the calls recorded. *)
Lemma run_same_capability s1 s2 n g t r g' :
  (forall g0, shape_outcome generator s1 g0 = shape_outcome generator s2 g0) ->
  retry_run generator s1 n g t r g' ->
  exists t2,
    retry_run generator s2 n g t2 r g' /\ diagnostics t2 = diagnostics t.
Proof.
  intros Hsame.
  induction 1 as [g|n g l g' Ho|n g o message g1 t r g2 Ho Hm _ IH
                 |n g o e g1 Ho He].
  - exists []. split; [constructor|done].
  - rewrite Hsame in Ho. eexists. split; [by apply run_break|].
    by rewrite !attempt_events_diagnostics.
  - rewrite Hsame in Ho. destruct IH as (t2 & Hrun & Hd).
    eexists. split; [by eapply run_retry|].
    rewrite !diagnostics_app, !attempt_events_diagnostics.
    by rewrite !diagnostics_print, Hd.
  - rewrite Hsame in Ho. eexists. split; [by eapply run_raise|].
    by rewrite !attempt_events_diagnostics.
Qed.

(** ** The same, of the calls of the loop *)

Lemma extend_diagnostics w g t :
  length (diagnostics (trace (extend w g t)))
  = (length (diagnostics (trace w)) + length (diagnostics t))%nat.
Proof. unfold extend. simpl. by rewrite diagnostics_app, length_app. Qed.

Lemma retry_unused_iterations s n m w r w' :
  retry generator s n w = (r, w') ->
  (length (diagnostics (trace w'))
   < length (diagnostics (trace w)) + n)%nat ->
  (n <= m)%nat ->
  retry generator s m w = (r, w').
Proof.
  intros Hret Hd Hle.
  destruct (retry_sound s n w) as (t & r0 & g' & Heq & Hrun).
  rewrite Hret in Heq. injection Heq as -> ->.
  rewrite extend_diagnostics in Hd.
  eapply retry_complete; [|done].
  eapply run_unused_iterations; [done|lia|done].
Qed.

Lemma retry_exhausted_then s a b w r w1 :
  retry generator s a w = (r, w1) ->
  length (diagnostics (trace w1))
  = (length (diagnostics (trace w)) + a)%nat ->
  retry generator s (a + b) w = retry generator s b w1.
Proof.
  intros Hret Hd.
  destruct (retry_sound s a w) as (t & r0 & g' & Heq & Hrun).
  rewrite Hret in Heq. injection Heq as -> ->.
  rewrite extend_diagnostics in Hd.
  destruct (retry_sound s b (extend w g' t)) as (t' & r' & g2 & Heq' & Hrun').
  rewrite Heq', extend_extend.
  eapply retry_complete; [|done].
  eapply run_exhausted_then; [done|lia|done].
Qed.

Lemma retry_same_capability s1 s2 n w :
  (forall g0, shape_outcome generator s1 g0 = shape_outcome generator s2 g0) ->
  (retry generator s1 n w).1 = (retry generator s2 n w).1 /\
  generator_state (retry generator s1 n w).2
  = generator_state (retry generator s2 n w).2 /\
  diagnostics (trace (retry generator s1 n w).2)
  = diagnostics (trace (retry generator s2 n w).2).
Proof.
  intros Hsame.
  destruct (retry_sound s1 n w) as (t & r & g' & Heq & Hrun).
  destruct (run_same_capability _ _ _ _ _ _ _ Hsame Hrun) as (t2 & Hrun2 & Hd).
  rewrite Heq, (retry_complete _ _ _ _ _ _ Hrun2 w eq_refl). simpl.
  by rewrite !diagnostics_app, Hd.
Qed.

Lemma retry_succeeds_after_yaml_failures s n k w messages g1 topics g2 :
  (k < n)%nat ->
  failed_attempts (shape_outcome generator s) yaml_failure k
    (generator_state w) = Some (messages, g1) ->
  shape_outcome generator s g1 = (Converted topics, g2) ->
  exists t,
    retry generator s n w = (Returns topics, extend w g2 t) /\
    diagnostics t = retry_message <$> messages /\
    generation_calls t = S k.
Proof.
  intros Hk Hf Ho.
  destruct (run_after_failures _ _ _ _ _ Hf) as (t0 & Hd & Hc & Hl & Hrun).
  exists (t0 ++ attempt_events generator s g1). repeat split.
  - replace n with (k + S (n - S k))%nat by lia.
    eapply retry_complete; [|done]. apply Hrun. by apply run_break.
  - by rewrite diagnostics_app, attempt_events_diagnostics, app_nil_r.
  - rewrite generation_calls_app, attempt_events_generation_calls. lia.
Qed.

Lemma retry_exhausted_by_yaml_failures s n w messages g1 :
  failed_attempts (shape_outcome generator s) yaml_failure n
    (generator_state w) = Some (messages, g1) ->
  exists t,
    retry generator s n w = (Returns [], extend w g1 t) /\
    diagnostics t = retry_message <$> messages /\
    length messages = n /\
    generation_calls t = n.
Proof.
  intros Hf.
  destruct (run_after_failures _ _ _ _ _ Hf) as (t0 & Hd & Hc & Hl & Hrun).
  exists t0. repeat split; [|done|done|done].
  eapply retry_complete; [|done].
  specialize (Hrun 0%nat [] (Returns []) g1 (run_exhausted _ _ _)).
  by rewrite Nat.add_0_r, app_nil_r in Hrun.
Qed.

(** * Further properties of the two functions *)

(** X1.  A zero or negative [n_retries] makes no attempt: both functions
    return the empty list and leave the generator and the trace untouched. *)
Theorem nonpositive_retries_return_empty
    (model : string) (model_kwargs : gmap string Value)
    (macro_topic : string) (n_subtopics n_macro_topics : Z)
    (prompt_template : string) (n_retries : Z) (w : World G Value) :
  n_retries <= 0 ->
  generate_subtopics generator model model_kwargs macro_topic n_subtopics
    prompt_template n_retries w = (Returns [], w)
  /\
  generate_macro_topics generator model model_kwargs n_macro_topics
    prompt_template n_retries w = (Returns [], w).
Proof.
  intros Hn. unfold generate_subtopics, generate_macro_topics.
  by replace (Z.to_nat n_retries) with 0%nat by lia.
Qed.

(** X2.  A call never makes more than [n_retries] generation calls, never
    more conversion calls than generation calls, and never prints more
    diagnostics than it made generation calls. *)
Theorem calls_within_budget
    (model : string) (model_kwargs : gmap string Value)
    (macro_topic : string) (n_subtopics n_macro_topics : Z)
    (prompt_template : string) (n_retries : Z) (w : World G Value) :
  (exists t r g',
     generate_subtopics generator model model_kwargs macro_topic n_subtopics
       prompt_template n_retries w = (r, extend w g' t) /\
     (generation_calls t <= Z.to_nat n_retries)%nat /\
     (conversion_calls t <= generation_calls t)%nat /\
     (length (diagnostics t) <= generation_calls t)%nat)
  /\
  (exists t r g',
     generate_macro_topics generator model model_kwargs n_macro_topics
       prompt_template n_retries w = (r, extend w g' t) /\
     (generation_calls t <= Z.to_nat n_retries)%nat /\
     (conversion_calls t <= generation_calls t)%nat /\
     (length (diagnostics t) <= generation_calls t)%nat).
Proof.
  split.
  - destruct (retry_sound
                (SubtopicsShape model model_kwargs macro_topic n_subtopics
                   prompt_template)
                (Z.to_nat n_retries) w) as (t & r & g' & Heq & Hrun).
    exists t, r, g'. split; [exact Heq|]. by eapply run_budget.
  - destruct (retry_sound
                (MacroTopicsShape model model_kwargs n_macro_topics
                   prompt_template)
                (Z.to_nat n_retries) w) as (t & r & g' & Heq & Hrun).
    exists t, r, g'. split; [exact Heq|]. by eapply run_budget.
Qed.

(** X3.  Neither function ever raises a [YamlConversionError], whatever the
    generator does: an exception that leaves a call is of another class. *)
Theorem conversion_error_never_escapes
    (model : string) (model_kwargs : gmap string Value)
    (macro_topic : string) (n_subtopics n_macro_topics : Z)
    (prompt_template : string) (n_retries : Z) (w : World G Value)
    (message : string) :
  (generate_subtopics generator model model_kwargs macro_topic n_subtopics
     prompt_template n_retries w).1
  <> Raises (YamlConversionError message)
  /\
  (generate_macro_topics generator model model_kwargs n_macro_topics
     prompt_template n_retries w).1
  <> Raises (YamlConversionError message).
Proof.
  split.
  - destruct (retry_sound
                (SubtopicsShape model model_kwargs macro_topic n_subtopics
                   prompt_template)
                (Z.to_nat n_retries) w) as (t & r & g' & Heq & Hrun).
    rewrite generate_subtopics_retry, Heq. simpl. intros ->.
    by apply run_never_raises_yaml in Hrun.
  - destruct (retry_sound
                (MacroTopicsShape model model_kwargs n_macro_topics
                   prompt_template)
                (Z.to_nat n_retries) w) as (t & r & g' & Heq & Hrun).
    rewrite generate_macro_topics_retry, Heq. simpl. intros ->.
    by apply run_never_raises_yaml in Hrun.
Qed.

(** X4.  The diagnostics of a call report the conversion errors it caught,
    one for one: each call on the generator that raised a
    [YamlConversionError] is directly followed by the line
    [Hit: <message>, Retrying...] of its message, and nothing else is
    printed. *)
Theorem diagnostics_report_caught_errors
    (model : string) (model_kwargs : gmap string Value)
    (macro_topic : string) (n_subtopics n_macro_topics : Z)
    (prompt_template : string) (n_retries : Z) (w : World G Value) :
  (exists t r g',
     generate_subtopics generator model model_kwargs macro_topic n_subtopics
       prompt_template n_retries w = (r, extend w g' t) /\
     diagnostics_follow_errors t = true)
  /\
  (exists t r g',
     generate_macro_topics generator model model_kwargs n_macro_topics
       prompt_template n_retries w = (r, extend w g' t) /\
     diagnostics_follow_errors t = true).
Proof.
  split.
  - destruct (retry_sound
                (SubtopicsShape model model_kwargs macro_topic n_subtopics
                   prompt_template)
                (Z.to_nat n_retries) w) as (t & r & g' & Heq & Hrun).
    exists t, r, g'. split; [exact Heq|].
    by eapply run_diagnostics_follow_errors.
  - destruct (retry_sound
                (MacroTopicsShape model model_kwargs n_macro_topics
                   prompt_template)
                (Z.to_nat n_retries) w) as (t & r & g' & Heq & Hrun).
    exists t, r, g'. split; [exact Heq|].
    by eapply run_diagnostics_follow_errors.
Qed.

(** X6.  Retries that are not needed change nothing: when a call ended
    before its last attempt failed (it printed fewer than [n_retries]
    diagnostics), the call with any larger [n_retries] returns or raises the
    same and leaves the same world. *)
Theorem larger_budget_same_run
    (model : string) (model_kwargs : gmap string Value)
    (macro_topic : string) (n_subtopics n_macro_topics : Z)
    (prompt_template : string) (n_retries n_retries' : Z)
    (w : World G Value) (r : result (list string)) (w' : World G Value) :
  n_retries <= n_retries' ->
  (length (diagnostics (trace w'))
   < length (diagnostics (trace w)) + Z.to_nat n_retries)%nat ->
  (generate_subtopics generator model model_kwargs macro_topic n_subtopics
     prompt_template n_retries w = (r, w') ->
   generate_subtopics generator model model_kwargs macro_topic n_subtopics
     prompt_template n_retries' w = (r, w'))
  /\
  (generate_macro_topics generator model model_kwargs n_macro_topics
     prompt_template n_retries w = (r, w') ->
   generate_macro_topics generator model model_kwargs n_macro_topics
     prompt_template n_retries' w = (r, w')).
Proof.
  intros Hle Hd. split; intros Hret.
  - rewrite generate_subtopics_retry in *.
    eapply retry_unused_iterations; [exact Hret|exact Hd|lia].
  - rewrite generate_macro_topics_retry in *.
    eapply retry_unused_iterations; [exact Hret|exact Hd|lia].
Qed.

(** X7.  Retries add up: when a call with [a] retries used them all (it
    printed [a] diagnostics), a call with [a + b] retries is that call
    followed by a call with [b] retries from the world it left. *)
Theorem exhausted_call_continues
    (model : string) (model_kwargs : gmap string Value)
    (macro_topic : string) (n_subtopics n_macro_topics : Z)
    (prompt_template : string) (a b : Z)
    (w : World G Value) (r : result (list string)) (w1 : World G Value) :
  0 <= a ->
  0 <= b ->
  length (diagnostics (trace w1))
  = (length (diagnostics (trace w)) + Z.to_nat a)%nat ->
  (generate_subtopics generator model model_kwargs macro_topic n_subtopics
     prompt_template a w = (r, w1) ->
   generate_subtopics generator model model_kwargs macro_topic n_subtopics
     prompt_template (a + b) w
   = generate_subtopics generator model model_kwargs macro_topic n_subtopics
       prompt_template b w1)
  /\
  (generate_macro_topics generator model model_kwargs n_macro_topics
     prompt_template a w = (r, w1) ->
   generate_macro_topics generator model model_kwargs n_macro_topics
     prompt_template (a + b) w
   = generate_macro_topics generator model model_kwargs n_macro_topics
       prompt_template b w1).
Proof.
  intros Ha Hb Hd.
  assert (Hab : Z.to_nat (a + b) = (Z.to_nat a + Z.to_nat b)%nat) by lia.
  split; intros Hret.
  - rewrite !generate_subtopics_retry in *. rewrite Hab.
    by eapply retry_exhausted_then.
  - rewrite !generate_macro_topics_retry in *. rewrite Hab.
    by eapply retry_exhausted_then.
Qed.

(** X8.  The two functions are the same loop: on a generator whose two
    generation operations answer alike for the arguments given, and whose
    conversion does not depend on being given the configuration mapping,
    they return or raise the same, leave the generator in the same state and
    print the same diagnostics. *)
Theorem functions_agree_on_indifferent_generator
    (model : string) (model_kwargs : gmap string Value)
    (macro_topic : string) (n_subtopics n_macro_topics : Z)
    (prompt_template : string) (n_retries : Z) (w : World G Value) :
  (forall g,
     gen_generate_subtopics generator model model_kwargs macro_topic
       n_subtopics prompt_template g
     = gen_generate_macro_topics generator n_macro_topics model model_kwargs
         prompt_template g) ->
  (forall first g,
     gen_convert_response_to_yaml_list generator first model None g
     = gen_convert_response_to_yaml_list generator first model
         (Some model_kwargs) g) ->
  (generate_subtopics generator model model_kwargs macro_topic n_subtopics
     prompt_template n_retries w).1
  = (generate_macro_topics generator model model_kwargs n_macro_topics
       prompt_template n_retries w).1
  /\
  generator_state
    (generate_subtopics generator model model_kwargs macro_topic n_subtopics
       prompt_template n_retries w).2
  = generator_state
      (generate_macro_topics generator model model_kwargs n_macro_topics
         prompt_template n_retries w).2
  /\
  diagnostics
    (trace
       (generate_subtopics generator model model_kwargs macro_topic
          n_subtopics prompt_template n_retries w).2)
  = diagnostics
      (trace
         (generate_macro_topics generator model model_kwargs n_macro_topics
            prompt_template n_retries w).2).
Proof.
  intros Hgen Hconv.
  rewrite generate_subtopics_retry, generate_macro_topics_retry.
  apply retry_same_capability. intros g.
  unfold shape_outcome, attempt_outcome. simpl. rewrite Hgen.
  destruct (gen_generate_macro_topics generator n_macro_topics model
              model_kwargs prompt_template g) as [[[|first rest]|e] g1];
    try reflexivity.
  unfold shape_conversion. simpl. by rewrite Hconv.
Qed.

(** X9.  The attempts that fail before a success may fail in either step:
    after [k < n_retries] attempts in which the generation or the conversion
    raised a conversion error, an attempt that converts ends the call with
    its list, [k] diagnostics and [k + 1] generation calls. *)
Theorem retries_after_failures_of_either_step
    (model : string) (model_kwargs : gmap string Value)
    (macro_topic : string) (n_subtopics n_macro_topics : Z)
    (prompt_template : string) (n_retries : Z) (k : nat) (w : World G Value)
    (messages : list string) (g1 : G) (topics : list string) (g2 : G) :
  Z.of_nat k < n_retries ->
  (failed_attempts
     (subtopics_outcome generator model model_kwargs macro_topic n_subtopics
        prompt_template)
     yaml_failure k (generator_state w) = Some (messages, g1) ->
   subtopics_outcome generator model model_kwargs macro_topic n_subtopics
     prompt_template g1 = (Converted topics, g2) ->
   exists t,
     generate_subtopics generator model model_kwargs macro_topic n_subtopics
       prompt_template n_retries w = (Returns topics, extend w g2 t) /\
     diagnostics t = retry_message <$> messages /\
     generation_calls t = S k)
  /\
  (failed_attempts
     (macro_topics_outcome generator model model_kwargs n_macro_topics
        prompt_template)
     yaml_failure k (generator_state w) = Some (messages, g1) ->
   macro_topics_outcome generator model model_kwargs n_macro_topics
     prompt_template g1 = (Converted topics, g2) ->
   exists t,
     generate_macro_topics generator model model_kwargs n_macro_topics
       prompt_template n_retries w = (Returns topics, extend w g2 t) /\
     diagnostics t = retry_message <$> messages /\
     generation_calls t = S k).
Proof.
  intros Hk. split; intros Hf Ho.
  - rewrite generate_subtopics_retry.
    eapply retry_succeeds_after_yaml_failures; [lia|exact Hf|exact Ho].
  - rewrite generate_macro_topics_retry.
    eapply retry_succeeds_after_yaml_failures; [lia|exact Hf|exact Ho].
Qed.

(** X10.  Retries are used up by conversion errors of either step: when on
    each of the [n_retries] attempts the generation or the conversion raises
    a conversion error, the call returns the empty list after [n_retries]
    generation calls and as many diagnostics. *)
Theorem exhausted_by_failures_of_either_step
    (model : string) (model_kwargs : gmap string Value)
    (macro_topic : string) (n_subtopics n_macro_topics : Z)
    (prompt_template : string) (n_retries : Z) (w : World G Value)
    (messages : list string) (g1 : G) :
  0 <= n_retries ->
  (failed_attempts
     (subtopics_outcome generator model model_kwargs macro_topic n_subtopics
        prompt_template)
     yaml_failure (Z.to_nat n_retries) (generator_state w)
     = Some (messages, g1) ->
   exists t,
     generate_subtopics generator model model_kwargs macro_topic n_subtopics
       prompt_template n_retries w = (Returns [], extend w g1 t) /\
     diagnostics t = retry_message <$> messages /\
     Z.of_nat (length messages) = n_retries /\
     Z.of_nat (generation_calls t) = n_retries)
  /\
  (failed_attempts
     (macro_topics_outcome generator model model_kwargs n_macro_topics
        prompt_template)
     yaml_failure (Z.to_nat n_retries) (generator_state w)
     = Some (messages, g1) ->
   exists t,
     generate_macro_topics generator model model_kwargs n_macro_topics
       prompt_template n_retries w = (Returns [], extend w g1 t) /\
     diagnostics t = retry_message <$> messages /\
     Z.of_nat (length messages) = n_retries /\
     Z.of_nat (generation_calls t) = n_retries).
Proof.
  intros Hn. split; intros Hf.
  - rewrite generate_subtopics_retry.
    destruct (retry_exhausted_by_yaml_failures
                (SubtopicsShape model model_kwargs macro_topic n_subtopics
                   prompt_template) _ _ _ _ Hf) as (t & Hret & Hd & Hl & Hc).
    exists t. repeat split; [done|done|lia|lia].
  - rewrite generate_macro_topics_retry.
    destruct (retry_exhausted_by_yaml_failures
                (MacroTopicsShape model model_kwargs n_macro_topics
                   prompt_template) _ _ _ _ Hf) as (t & Hret & Hd & Hl & Hc).
    exists t. repeat split; [done|done|lia|lia].
Qed.

End Properties.

(** * What the conversion is given *)

Section Forwarding.

Context {G Value : Type}.

Implicit Types (s : Shape Value) (w : World G Value) (g : G).

(** A loop only meets the generator through the generation operation of its
    shape and through the conversion as its shape calls it: two generators
    that agree on these two give the same loop. *)
Lemma retry_same_generator (generator generator' : NemotronGenerator G Value)
    s n :
  (forall g,
     shape_generation generator s g = shape_generation generator' s g) ->
  (forall item g,
     shape_conversion generator s item g
     = shape_conversion generator' s item g) ->
  forall w, retry generator s n w = retry generator' s n w.
Proof.
  intros Hgen Hconv.
  assert (Ha : forall w,
            shape_attempt generator s w = shape_attempt generator' s w).
  { intros w. rewrite !shape_attempt_unfold. unfold bind, call.
    rewrite Hgen.
    destruct (shape_generation generator' s (generator_state w))
      as [[[|first rest]|e] g1]; try reflexivity.
    simpl. by rewrite Hconv. }
  assert (Hi : forall w,
            iteration (shape_attempt generator s) w
            = iteration (shape_attempt generator' s) w).
  { intros w. unfold iteration, try_except_YamlConversionError, bind.
    by rewrite Ha. }
  unfold retry. induction n as [|n IH]; intros w; simpl; [done|].
  unfold bind. rewrite Hi.
  destruct (iteration (shape_attempt generator' s) w) as [[[topics|]|e] w'];
    [done|apply IH|done].
Qed.

(** C7.  [generate_subtopics] gives the conversion the model identifier and
    no configuration mapping; [generate_macro_topics] gives it the model
    identifier and the configuration mapping.  After [k < n_retries]
    attempts that failed with a conversion error, the list returned is the
    one [convert_response_to_yaml_list] returns for the first element when
    called with [model] and no mapping (resp. with [model] and
    [model_kwargs]).  And the conversion is not called in any other way: a
    generator whose conversion differs only on calls with a mapping (resp.
    only on calls without one, or with another one) gives the same call. *)
Theorem conversion_forwarding_differs
    (generator : NemotronGenerator G Value)
    (model : string) (model_kwargs : gmap string Value)
    (macro_topic : string) (n_subtopics n_macro_topics : Z)
    (prompt_template : string) (n_retries : Z) (k : nat) (w : World G Value)
    (messages : list string) (g1 : G) (first : string) (rest : list string)
    (g2 : G) (topics : list string) (g3 : G) :
  (Z.of_nat k < n_retries ->
   failed_attempts
     (subtopics_outcome generator model model_kwargs macro_topic n_subtopics
        prompt_template)
     yaml_failure k (generator_state w) = Some (messages, g1) ->
   gen_generate_subtopics generator model model_kwargs macro_topic
     n_subtopics prompt_template g1 = (Returns (first :: rest), g2) ->
   gen_convert_response_to_yaml_list generator first model None g2
     = (Returns topics, g3) ->
   exists t,
     generate_subtopics generator model model_kwargs macro_topic n_subtopics
       prompt_template n_retries w = (Returns topics, extend w g3 t) /\
     diagnostics t = retry_message <$> messages /\
     generation_calls t = S k)
  /\
  (Z.of_nat k < n_retries ->
   failed_attempts
     (macro_topics_outcome generator model model_kwargs n_macro_topics
        prompt_template)
     yaml_failure k (generator_state w) = Some (messages, g1) ->
   gen_generate_macro_topics generator n_macro_topics model model_kwargs
     prompt_template g1 = (Returns (first :: rest), g2) ->
   gen_convert_response_to_yaml_list generator first model
     (Some model_kwargs) g2 = (Returns topics, g3) ->
   exists t,
     generate_macro_topics generator model model_kwargs n_macro_topics
       prompt_template n_retries w = (Returns topics, extend w g3 t) /\
     diagnostics t = retry_message <$> messages /\
     generation_calls t = S k)
  /\
  (forall generator' : NemotronGenerator G Value,
     (forall g,
        gen_generate_subtopics generator model model_kwargs macro_topic
          n_subtopics prompt_template g
        = gen_generate_subtopics generator' model model_kwargs macro_topic
            n_subtopics prompt_template g) ->
     (forall item g,
        gen_convert_response_to_yaml_list generator item model None g
        = gen_convert_response_to_yaml_list generator' item model None g) ->
     generate_subtopics generator model model_kwargs macro_topic n_subtopics
       prompt_template n_retries w
     = generate_subtopics generator' model model_kwargs macro_topic
         n_subtopics prompt_template n_retries w)
  /\
  (forall generator' : NemotronGenerator G Value,
     (forall g,
        gen_generate_macro_topics generator n_macro_topics model model_kwargs
          prompt_template g
        = gen_generate_macro_topics generator' n_macro_topics model
            model_kwargs prompt_template g) ->
     (forall item g,
        gen_convert_response_to_yaml_list generator item model
          (Some model_kwargs) g
        = gen_convert_response_to_yaml_list generator' item model
            (Some model_kwargs) g) ->
     generate_macro_topics generator model model_kwargs n_macro_topics
       prompt_template n_retries w
     = generate_macro_topics generator' model model_kwargs n_macro_topics
         prompt_template n_retries w).
Proof.
  repeat split.
  - intros Hk Hf Hg Hc. rewrite generate_subtopics_retry.
    eapply retry_succeeds_after_yaml_failures; [lia|exact Hf|].
    unfold shape_outcome, attempt_outcome, shape_conversion.
    cbn [shape_generation shape_model forwarded_kwargs].
    by rewrite Hg, Hc.
  - intros Hk Hf Hg Hc. rewrite generate_macro_topics_retry.
    eapply retry_succeeds_after_yaml_failures; [lia|exact Hf|].
    unfold shape_outcome, attempt_outcome, shape_conversion.
    cbn [shape_generation shape_model forwarded_kwargs].
    by rewrite Hg, Hc.
  - intros generator' Hgen Hconv. rewrite !generate_subtopics_retry.
    by apply retry_same_generator.
  - intros generator' Hgen Hconv. rewrite !generate_macro_topics_retry.
    by apply retry_same_generator.
Qed.

End Forwarding.

(** * Concrete runs *)

Example retry_message_example :
  retry_message "not a list" = "Hit: not a list, Retrying...".
Proof. reflexivity. Qed.

(** Two failed conversions, then a successful one: three generation calls,
    three conversions without the configuration mapping, two diagnostics. *)
Example recovering_run :
  generate_subtopics scripted "model" sampling "Mathematics" 2 "template" 5
    (start recovering_script)
  = (Returns ["Algebra"; "Geometry"],
     {| generator_state := [];
        trace :=
          [GenerateSubtopics "model" sampling "Mathematics" 2 "template"
             (Returns ["raw one"; "spare"]);
           ConvertResponseToYamlList "raw one" "model" None
             (Raises (YamlConversionError "not a list"));
           Print "Hit: not a list, Retrying...";
           GenerateSubtopics "model" sampling "Mathematics" 2 "template"
             (Returns ["raw two"]);
           ConvertResponseToYamlList "raw two" "model" None
             (Raises (YamlConversionError "not yaml"));
           Print "Hit: not yaml, Retrying...";
           GenerateSubtopics "model" sampling "Mathematics" 2 "template"
             (Returns ["raw three"]);
           ConvertResponseToYamlList "raw three" "model" None
             (Returns ["Algebra"; "Geometry"])] |}).
Proof. reflexivity. Qed.

(** The variants differ in a way a generator can see: the macro-topic
    variant fails on a conversion that refuses the configuration mapping,
    the subtopic variant on one that insists on it. *)
Example macro_topics_pass_kwargs :
  (generate_macro_topics scripted_refusing_kwargs "model" sampling 2
     "template" 5 (start recovering_script)).1
  = Raises (OtherError "TypeError" "unexpected model_kwargs").
Proof. reflexivity. Qed.

Example subtopics_omit_kwargs :
  (generate_subtopics scripted_requiring_kwargs "model" sampling
     "Mathematics" 2 "template" 5 (start recovering_script)).1
  = Raises (OtherError "TypeError" "missing model_kwargs").
Proof. reflexivity. Qed.

(** A negative [n_retries] makes no attempt either. *)
Example negative_retries_run :
  generate_macro_topics scripted "model" sampling 2 "template" (-1)
    (start recovering_script)
  = (Returns [], start recovering_script).
Proof. reflexivity. Qed.

(** An exception of another class ends the call on the second attempt. *)
Example crashing_run :
  generate_macro_topics scripted "model" sampling 2 "template" 5
    (start crashing_script)
  = (Raises (OtherError "ConnectionError" "service unavailable"),
     {| generator_state := [Returns ["raw two"]; Returns ["Algebra"]];
        trace :=
          [GenerateMacroTopics 2 "model" sampling "template"
             (Returns ["raw one"]);
           ConvertResponseToYamlList "raw one" "model" (Some sampling)
             (Raises (YamlConversionError "not a list"));
           Print "Hit: not a list, Retrying...";
           GenerateMacroTopics 2 "model" sampling "template"
             (Raises (OtherError "ConnectionError" "service unavailable"))]
     |}).
Proof. reflexivity. Qed.

Lemma retries_until_conversion_succeeds_witness :
  (exists t,
     generate_subtopics scripted "model" sampling "Mathematics" 2 "template"
       5 (start recovering_script)
     = (Returns ["Algebra"; "Geometry"],
        extend (start recovering_script) [] t) /\
     diagnostics t = retry_message <$> ["not a list"; "not yaml"] /\
     length (diagnostics t) = 2%nat)
  /\
  (exists t,
     generate_macro_topics scripted "model" sampling 2 "template" 5
       (start recovering_script)
     = (Returns ["Algebra"; "Geometry"],
        extend (start recovering_script) [] t) /\
     diagnostics t = retry_message <$> ["not a list"; "not yaml"] /\
     length (diagnostics t) = 2%nat).
Proof.
  destruct (retries_until_conversion_succeeds scripted "model" sampling
              "Mathematics" 2 2 "template" 5 2 (start recovering_script)
              ["not a list"; "not yaml"]
              [Returns ["raw three"]; Returns ["Algebra"; "Geometry"]]
              ["Algebra"; "Geometry"] [] ltac:(lia)) as [Hs Hm].
  split; [apply Hs | apply Hm]; reflexivity.
Defined.

Lemma exhausted_retries_return_empty_witness :
  (exists t,
     generate_subtopics scripted "model" sampling "Mathematics" 2 "template"
       2 (start failing_script)
     = (Returns [], extend (start failing_script) [] t) /\
     diagnostics t = retry_message <$> ["not a list"; "not yaml"] /\
     Z.of_nat (length (diagnostics t)) = 2)
  /\
  (exists t,
     generate_macro_topics scripted "model" sampling 2 "template" 2
       (start failing_script)
     = (Returns [], extend (start failing_script) [] t) /\
     diagnostics t = retry_message <$> ["not a list"; "not yaml"] /\
     Z.of_nat (length (diagnostics t)) = 2).
Proof.
  destruct (exhausted_retries_return_empty scripted "model" sampling
              "Mathematics" 2 2 "template" 2 (start failing_script)
              ["not a list"; "not yaml"] [] ltac:(lia)) as [Hs Hm].
  split; [apply Hs | apply Hm]; reflexivity.
Defined.

Lemma other_errors_propagate_witness :
  (exists t,
     generate_subtopics scripted "model" sampling "Mathematics" 2 "template"
       5 (start crashing_script)
     = (Raises (OtherError "ConnectionError" "service unavailable"),
        extend (start crashing_script)
          [Returns ["raw two"]; Returns ["Algebra"]] t) /\
     diagnostics t = retry_message <$> ["not a list"] /\
     generation_calls t = 2%nat /\
     last t ≫= call_outcome
     = Some (Raises (OtherError "ConnectionError" "service unavailable")))
  /\
  (exists t,
     generate_macro_topics scripted "model" sampling 2 "template" 5
       (start crashing_script)
     = (Raises (OtherError "ConnectionError" "service unavailable"),
        extend (start crashing_script)
          [Returns ["raw two"]; Returns ["Algebra"]] t) /\
     diagnostics t = retry_message <$> ["not a list"] /\
     generation_calls t = 2%nat /\
     last t ≫= call_outcome
     = Some (Raises (OtherError "ConnectionError" "service unavailable"))).
Proof.
  destruct (other_errors_propagate scripted "model" sampling "Mathematics"
              2 2 "template" 5 1 (start crashing_script) ["not a list"]
              [Raises (OtherError "ConnectionError" "service unavailable");
               Returns ["raw two"]; Returns ["Algebra"]]
              (GenerationRaised
                 (OtherError "ConnectionError" "service unavailable"))
              (OtherError "ConnectionError" "service unavailable")
              [Returns ["raw two"]; Returns ["Algebra"]]
              ltac:(lia) eq_refl eq_refl) as [Hs Hm].
  split; [apply Hs | apply Hm]; reflexivity.
Defined.



Lemma generation_conversion_error_is_retried_witness :
  generate_subtopics scripted "model" sampling "Mathematics" 2 "template" 5
    (start generation_failure_script)
  = generate_subtopics scripted "model" sampling "Mathematics" 2 "template"
      (5 - 1)
      (extend (start generation_failure_script)
         [Returns ["raw"]; Returns ["Algebra"]]
         [GenerateSubtopics "model" sampling "Mathematics" 2 "template"
            (Raises (YamlConversionError "no response"));
          Print (retry_message "no response")])
  /\
  generate_macro_topics scripted "model" sampling 2 "template" 5
    (start generation_failure_script)
  = generate_macro_topics scripted "model" sampling 2 "template" (5 - 1)
      (extend (start generation_failure_script)
         [Returns ["raw"]; Returns ["Algebra"]]
         [GenerateMacroTopics 2 "model" sampling "template"
            (Raises (YamlConversionError "no response"));
          Print (retry_message "no response")]).
Proof.
  destruct (generation_conversion_error_is_retried scripted "model" sampling
              "Mathematics" 2 2 "template" 5
              (start generation_failure_script) "no response"
              [Returns ["raw"]; Returns ["Algebra"]] ltac:(lia)) as [Hs Hm].
  split; [apply Hs | apply Hm]; reflexivity.
Defined.

Lemma empty_response_raises_index_error_witness :
  (exists t,
     generate_subtopics scripted "model" sampling "Mathematics" 2 "template"
       5 (start empty_response_script)
     = (Raises (IndexError "list index out of range"),
        extend (start empty_response_script)
          [Returns ["raw two"]; Returns ["Algebra"]] t) /\
     diagnostics t = retry_message <$> ["not a list"] /\
     generation_calls t = 2%nat /\
     last t = Some (GenerateSubtopics "model" sampling "Mathematics" 2
                      "template" (Returns [])))
  /\
  (exists t,
     generate_macro_topics scripted "model" sampling 2 "template" 5
       (start empty_response_script)
     = (Raises (IndexError "list index out of range"),
        extend (start empty_response_script)
          [Returns ["raw two"]; Returns ["Algebra"]] t) /\
     diagnostics t = retry_message <$> ["not a list"] /\
     generation_calls t = 2%nat /\
     last t = Some (GenerateMacroTopics 2 "model" sampling "template"
                      (Returns []))).
Proof.
  destruct (empty_response_raises_index_error scripted "model" sampling
              "Mathematics" 2 2 "template" 5 1
              (start empty_response_script) ["not a list"]
              [Returns []; Returns ["raw two"]; Returns ["Algebra"]]
              [Returns ["raw two"]; Returns ["Algebra"]]
              ltac:(lia)) as [Hs Hm].
  split; [apply Hs | apply Hm]; reflexivity.
Defined.

Lemma runs_depend_on_generator_state_only_witness :
  (exists t r g',
     generate_subtopics scripted "model" sampling "Mathematics" 2 "template"
       5 (start recovering_script)
     = (r, extend (start recovering_script) g' t) /\
     generate_subtopics scripted "model" sampling "Mathematics" 2 "template"
       5 {| generator_state := recovering_script;
            trace := [Print "earlier output"] |}
     = (r, extend {| generator_state := recovering_script;
                     trace := [Print "earlier output"] |} g' t))
  /\
  (exists t r g',
     generate_macro_topics scripted "model" sampling 2 "template" 5
       (start recovering_script)
     = (r, extend (start recovering_script) g' t) /\
     generate_macro_topics scripted "model" sampling 2 "template" 5
       {| generator_state := recovering_script;
          trace := [Print "earlier output"] |}
     = (r, extend {| generator_state := recovering_script;
                     trace := [Print "earlier output"] |} g' t)).
Proof.
  apply (runs_depend_on_generator_state_only scripted "model" sampling
           "Mathematics" 2 2 "template" 5 (start recovering_script)
           {| generator_state := recovering_script;
              trace := [Print "earlier output"] |}).
  reflexivity.
Defined.

Lemma nonpositive_retries_return_empty_witness :
  generate_subtopics scripted "model" sampling "Mathematics" 2 "template"
    (-3) (start recovering_script)
  = (Returns [], start recovering_script)
  /\
  generate_macro_topics scripted "model" sampling 2 "template" (-3)
    (start recovering_script)
  = (Returns [], start recovering_script).
Proof.
  apply (nonpositive_retries_return_empty scripted "model" sampling
           "Mathematics" 2 2 "template" (-3) (start recovering_script)).
  lia.
Defined.

Lemma larger_budget_same_run_witness :
  generate_subtopics scripted "model" sampling "Mathematics" 2 "template" 8
    (start recovering_script)
  = (Returns ["Algebra"; "Geometry"],
     (generate_subtopics scripted "model" sampling "Mathematics" 2
        "template" 3 (start recovering_script)).2)
  /\
  generate_macro_topics scripted "model" sampling 2 "template" 8
    (start recovering_script)
  = (Returns ["Algebra"; "Geometry"],
     (generate_macro_topics scripted "model" sampling 2 "template" 3
        (start recovering_script)).2).
Proof.
  split.
  - apply (proj1 (larger_budget_same_run scripted "model" sampling
                    "Mathematics" 2 2 "template" 3 8
                    (start recovering_script) (Returns ["Algebra"; "Geometry"])
                    (generate_subtopics scripted "model" sampling
                       "Mathematics" 2 "template" 3
                       (start recovering_script)).2
                    ltac:(lia) ltac:(vm_compute; lia))).
    reflexivity.
  - apply (proj2 (larger_budget_same_run scripted "model" sampling
                    "Mathematics" 2 2 "template" 3 8
                    (start recovering_script) (Returns ["Algebra"; "Geometry"])
                    (generate_macro_topics scripted "model" sampling 2
                       "template" 3 (start recovering_script)).2
                    ltac:(lia) ltac:(vm_compute; lia))).
    reflexivity.
Defined.

Lemma exhausted_call_continues_witness :
  generate_subtopics scripted "model" sampling "Mathematics" 2 "template"
    (1 + 4) (start recovering_script)
  = generate_subtopics scripted "model" sampling "Mathematics" 2 "template"
      4
      (generate_subtopics scripted "model" sampling "Mathematics" 2
         "template" 1 (start recovering_script)).2
  /\
  generate_macro_topics scripted "model" sampling 2 "template" (1 + 4)
    (start recovering_script)
  = generate_macro_topics scripted "model" sampling 2 "template" 4
      (generate_macro_topics scripted "model" sampling 2 "template" 1
         (start recovering_script)).2.
Proof.
  split.
  - apply (proj1 (exhausted_call_continues scripted "model" sampling
                    "Mathematics" 2 2 "template" 1 4
                    (start recovering_script) (Returns [])
                    (generate_subtopics scripted "model" sampling
                       "Mathematics" 2 "template" 1
                       (start recovering_script)).2
                    ltac:(lia) ltac:(lia) ltac:(reflexivity))).
    reflexivity.
  - apply (proj2 (exhausted_call_continues scripted "model" sampling
                    "Mathematics" 2 2 "template" 1 4
                    (start recovering_script) (Returns [])
                    (generate_macro_topics scripted "model" sampling 2
                       "template" 1 (start recovering_script)).2
                    ltac:(lia) ltac:(lia) ltac:(reflexivity))).
    reflexivity.
Defined.

Lemma functions_agree_on_indifferent_generator_witness :
  (generate_subtopics scripted "model" sampling "Mathematics" 2 "template" 5
     (start recovering_script)).1
  = (generate_macro_topics scripted "model" sampling 3 "template" 5
       (start recovering_script)).1
  /\
  generator_state
    (generate_subtopics scripted "model" sampling "Mathematics" 2 "template"
       5 (start recovering_script)).2
  = generator_state
      (generate_macro_topics scripted "model" sampling 3 "template" 5
         (start recovering_script)).2
  /\
  diagnostics
    (trace
       (generate_subtopics scripted "model" sampling "Mathematics" 2
          "template" 5 (start recovering_script)).2)
  = diagnostics
      (trace
         (generate_macro_topics scripted "model" sampling 3 "template" 5
            (start recovering_script)).2).
Proof.
  apply (functions_agree_on_indifferent_generator scripted "model" sampling
           "Mathematics" 2 3 "template" 5 (start recovering_script)).
  - intros g. reflexivity.
  - intros first g. reflexivity.
Defined.

Lemma retries_after_failures_of_either_step_witness :
  (exists t,
     generate_subtopics scripted "model" sampling "Mathematics" 2 "template"
       5 (start mixed_script)
     = (Returns ["Algebra"], extend (start mixed_script) [] t) /\
     diagnostics t = retry_message <$> ["no response"; "not a list"] /\
     generation_calls t = 3%nat)
  /\
  (exists t,
     generate_macro_topics scripted "model" sampling 2 "template" 5
       (start mixed_script)
     = (Returns ["Algebra"], extend (start mixed_script) [] t) /\
     diagnostics t = retry_message <$> ["no response"; "not a list"] /\
     generation_calls t = 3%nat).
Proof.
  destruct (retries_after_failures_of_either_step scripted "model" sampling
              "Mathematics" 2 2 "template" 5 2 (start mixed_script)
              ["no response"; "not a list"]
              [Returns ["raw two"]; Returns ["Algebra"]]
              ["Algebra"] [] ltac:(lia)) as [Hs Hm].
  split; [apply Hs | apply Hm]; reflexivity.
Defined.

Lemma exhausted_by_failures_of_either_step_witness :
  (exists t,
     generate_subtopics scripted "model" sampling "Mathematics" 2 "template"
       2 (start mixed_script)
     = (Returns [],
        extend (start mixed_script)
          [Returns ["raw two"]; Returns ["Algebra"]] t) /\
     diagnostics t = retry_message <$> ["no response"; "not a list"] /\
     Z.of_nat (length ["no response"; "not a list"]) = 2 /\
     Z.of_nat (generation_calls t) = 2)
  /\
  (exists t,
     generate_macro_topics scripted "model" sampling 2 "template" 2
       (start mixed_script)
     = (Returns [],
        extend (start mixed_script)
          [Returns ["raw two"]; Returns ["Algebra"]] t) /\
     diagnostics t = retry_message <$> ["no response"; "not a list"] /\
     Z.of_nat (length ["no response"; "not a list"]) = 2 /\
     Z.of_nat (generation_calls t) = 2).
Proof.
  destruct (exhausted_by_failures_of_either_step scripted "model" sampling
              "Mathematics" 2 2 "template" 2 (start mixed_script)
              ["no response"; "not a list"]
              [Returns ["raw two"]; Returns ["Algebra"]]
              ltac:(lia)) as [Hs Hm].
  split; [apply Hs | apply Hm]; reflexivity.
Defined.

Lemma first_item_is_converted_witness :
  (exists t0,
     diagnostics t0 = retry_message <$> [] /\
     generation_calls t0 = 0%nat /\
     generate_subtopics scripted "model" sampling "Mathematics" 2 "template"
       5 (start recovering_script)
     = generate_subtopics scripted "model" sampling "Mathematics" 2
         "template" (5 - Z.of_nat 0 - 1)
         (extend (start recovering_script)
            [Returns ["raw two"]; Raises (YamlConversionError "not yaml");
             Returns ["raw three"]; Returns ["Algebra"; "Geometry"]]
            (t0 ++
             [GenerateSubtopics "model" sampling "Mathematics" 2 "template"
                (Returns ["raw one"; "spare"]);
              ConvertResponseToYamlList "raw one" "model" None
                (Raises (YamlConversionError "not a list"));
              Print (retry_message "not a list")])))
  /\
  (exists t0,
     diagnostics t0 = retry_message <$> ["not a list"; "not yaml"] /\
     generation_calls t0 = 2%nat /\
     generate_macro_topics scripted "model" sampling 2 "template" 5
       (start recovering_script)
     = (Returns ["Algebra"; "Geometry"],
        extend (start recovering_script) []
          (t0 ++
           [GenerateMacroTopics 2 "model" sampling "template"
              (Returns ["raw three"]);
            ConvertResponseToYamlList "raw three" "model" (Some sampling)
              (Returns ["Algebra"; "Geometry"])]))).
Proof.
  split.
  - exact (proj1 (first_item_is_converted scripted "model" sampling
                    "Mathematics" 2 2 "template" 5 0
                    (start recovering_script) [] recovering_script
                    "raw one" ["spare"]
                    [Raises (YamlConversionError "not a list");
                     Returns ["raw two"];
                     Raises (YamlConversionError "not yaml");
                     Returns ["raw three"]; Returns ["Algebra"; "Geometry"]]
                    ltac:(lia))
             eq_refl eq_refl).
  - exact (proj2 (first_item_is_converted scripted "model" sampling
                    "Mathematics" 2 2 "template" 5 2
                    (start recovering_script) ["not a list"; "not yaml"]
                    [Returns ["raw three"]; Returns ["Algebra"; "Geometry"]]
                    "raw three" [] [Returns ["Algebra"; "Geometry"]]
                    ltac:(lia))
             eq_refl eq_refl).
Defined.

Lemma conversion_forwarding_differs_witness :
  (exists t,
     generate_subtopics scripted_refusing_kwargs "model" sampling
       "Mathematics" 2 "template" 5 (start recovering_script)
     = (Returns ["Algebra"; "Geometry"],
        extend (start recovering_script) [] t) /\
     diagnostics t = retry_message <$> ["not a list"; "not yaml"] /\
     generation_calls t = 3%nat)
  /\
  (exists t,
     generate_macro_topics scripted_requiring_kwargs "model" sampling 2
       "template" 5 (start recovering_script)
     = (Returns ["Algebra"; "Geometry"],
        extend (start recovering_script) [] t) /\
     diagnostics t = retry_message <$> ["not a list"; "not yaml"] /\
     generation_calls t = 3%nat)
  /\
  generate_subtopics scripted_refusing_kwargs "model" sampling "Mathematics"
    2 "template" 5 (start recovering_script)
  = generate_subtopics scripted "model" sampling "Mathematics" 2 "template"
      5 (start recovering_script)
  /\
  generate_macro_topics scripted_requiring_kwargs "model" sampling 2
    "template" 5 (start recovering_script)
  = generate_macro_topics scripted "model" sampling 2 "template" 5
      (start recovering_script).
Proof.
  split; [|split; [|split]].
  - apply (proj1 (conversion_forwarding_differs scripted_refusing_kwargs
                    "model" sampling "Mathematics" 2 2 "template" 5 2
                    (start recovering_script) ["not a list"; "not yaml"]
                    [Returns ["raw three"]; Returns ["Algebra"; "Geometry"]]
                    "raw three" [] [Returns ["Algebra"; "Geometry"]]
                    ["Algebra"; "Geometry"] []));
      [lia|reflexivity|reflexivity|reflexivity].
  - apply (proj1 (proj2
             (conversion_forwarding_differs scripted_requiring_kwargs
                "model" sampling "Mathematics" 2 2 "template" 5 2
                (start recovering_script) ["not a list"; "not yaml"]
                [Returns ["raw three"]; Returns ["Algebra"; "Geometry"]]
                "raw three" [] [Returns ["Algebra"; "Geometry"]]
                ["Algebra"; "Geometry"] [])));
      [lia|reflexivity|reflexivity|reflexivity].
  - apply (proj1 (proj2 (proj2
             (conversion_forwarding_differs scripted_refusing_kwargs
                "model" sampling "Mathematics" 2 2 "template" 5 0
                (start recovering_script) [] [] "" [] [] [] []))));
      [intros g; reflexivity|intros item g; reflexivity].
  - apply (proj2 (proj2 (proj2
             (conversion_forwarding_differs scripted_requiring_kwargs
                "model" sampling "Mathematics" 2 2 "template" 5 0
                (start recovering_script) [] [] "" [] [] [] []))));
      [intros g; reflexivity|intros item g; reflexivity].
Defined.
